(** * The listing pipeline of app.py

    Shallow embedding of the data pipeline of the dashboard in [app.py]:
    the currency conversion [convert_to_won], the columns added by
    [load_data], the sidebar filter and the KPI means of [main], and
    [format_won].  Of the Streamlit widgets only the values they start
    with are described; the charts, the map and the image gallery only
    consume these values and are left out.

    Numbers are modelled as Python and pandas see them.
    - The amounts returned by [convert_to_won] are Python integers, hence
      [Z].  pandas stores such a column as int64 when every amount fits it
      ([int64_frame]); sums and products of int64 columns wrap around
      ([wrap64]).  Larger amounts make pandas choose uint64 or object
      columns, which are outside this development: the statements on the
      derived columns are about int64 frames.
    - Python floats and float64 columns are IEEE 754 binary64 values.  They
      are the [spec_float] values of the standard library with precision 53
      and maximal exponent 1024, so that division, multiplication and
      rounding are the ones the program runs, NaN and infinities included.
    - A cell of a raw numeric column is [None], an integer or a double;
      [pd.DataFrame] turns a column that mixes them into float64
      ([DataFrame]).
    - An exception raised by Python is a [Raise] result. *)

From Stdlib Require Import ZArith List Bool Lia Ascii String.
From Stdlib Require Import Floats.SpecFloat Numbers.DecimalString.
From Stdlib Require Import Sorting.Permutation Sorting.Sorted Sorting.Mergesort Structures.Orders.
Import ListNotations.

Set Implicit Arguments.

Local Open Scope Z_scope.

(** ** Binary64 arithmetic *)

Module F64.

Definition prec : Z := 53.
Definition emax : Z := 1024.

Definition float := spec_float.

Definition nan : float := S754_nan.

Definition isnan (x : float) : bool :=
  match x with S754_nan => true | _ => false end.

(** Conversion of an integer to the nearest double (ties to even), as
    numpy does when an integer column meets a float operand. *)
Definition of_Z (z : Z) : float := binary_normalize prec emax z 0 false.

Definition div (x y : float) : float := SFdiv prec emax x y.
Definition mul (x y : float) : float := SFmul prec emax x y.
Definition add (x y : float) : float := SFadd prec emax x y.

Definition leb (x y : float) : bool := SFleb x y.

(** [int(x)] of Python: truncation toward zero; infinities raise
    [OverflowError] and NaN raises [ValueError], both rendered by [None]. *)
Definition trunc (x : float) : option Z :=
  match x with
  | S754_zero _ => Some 0
  | S754_finite s m e =>
      let a := match e with
               | Zneg p => Z.pos m / 2 ^ Z.pos p
               | _ => Z.pos m * 2 ^ e
               end in
      Some (if s then - a else a)
  | S754_infinity _ | S754_nan => None
  end.

(** [math.floor(x)], the rounding the specification names. *)
Definition floor (x : float) : option Z :=
  match x with
  | S754_zero _ => Some 0
  | S754_finite s m e =>
      match e with
      | Zneg p => Some (if s then - ((Z.pos m + 2 ^ Z.pos p - 1) / 2 ^ Z.pos p)
                        else Z.pos m / 2 ^ Z.pos p)
      | _ => Some (if s then - (Z.pos m * 2 ^ e) else Z.pos m * 2 ^ e)
      end
  | S754_infinity _ | S754_nan => None
  end.

(** Exact three-way comparison of a double with an integer, as Python
    compares [float] with [int]; [None] when the double is NaN. *)
Definition compare_Z (x : float) (z : Z) : option comparison :=
  match x with
  | S754_nan => None
  | S754_infinity s => Some (if s then Lt else Gt)
  | S754_zero _ => Some (0 ?= z)
  | S754_finite s m e =>
      let v := if s then Z.neg m else Z.pos m in
      match e with
      | Zneg p => Some (v ?= z * 2 ^ Z.pos p)
      | _ => Some (v * 2 ^ e ?= z)
      end
  end.

Definition leb_Z (x : float) (z : Z) : bool :=
  match compare_Z x z with Some (Lt | Eq) => true | _ => false end.

Definition geb_Z (x : float) (z : Z) : bool :=
  match compare_Z x z with Some (Gt | Eq) => true | _ => false end.

(** Finite and different from zero. *)
Definition is_finite (x : float) : Prop := exists s m e, x = S754_finite s m e.


End F64.


(** ** Python values, exceptions and pandas columns *)

Inductive exn := OverflowError | ValueError | TypeError | KeyError | StreamlitAPIException.

Inductive result (A : Type) : Type :=
| Ok (a : A)
| Raise (e : exn).
Arguments Ok {A} a.
Arguments Raise {A} e.

Definition bind {A B : Type} (r : result A) (k : A -> result B) : result B :=
  match r with
  | Ok a => k a
  | Raise e => Raise e
  end.

Notation "x <- r ;; k" := (bind r (fun x => k))
  (at level 61, r at next level, right associativity).

Fixpoint mapM {A B : Type} (f : A -> result B) (l : list A) : result (list B) :=
  match l with
  | [] => Ok []
  | a :: l' => b <- f a ;; bs <- mapM f l' ;; Ok (b :: bs)
  end.

(** A cell of a raw numeric column: JSON [null] stays [None] in an object
    column and becomes NaN in a float64 column; numbers are integers or
    doubles. *)
Inductive cell :=
| PyNone
| PyInt (z : Z)
| PyFloat (x : F64.float).

(** [pd.isna(val)] on a scalar. *)
Definition isna (val : cell) : bool :=
  match val with
  | PyNone => true
  | PyInt _ => false
  | PyFloat x => F64.isnan x
  end.

Definition is_None (val : cell) : bool :=
  match val with PyNone => true | _ => false end.

Definition is_int (c : cell) : bool :=
  match c with PyInt _ => true | _ => false end.

(** The double a cell becomes in a float64 column. *)
Definition to_float (c : cell) : F64.float :=
  match c with
  | PyNone => F64.nan
  | PyInt z => F64.of_Z z
  | PyFloat x => x
  end.

(** [int(val)] *)
Definition py_int (val : cell) : result Z :=
  match val with
  | PyNone => Raise TypeError
  | PyInt z => Ok z
  | PyFloat x =>
      match F64.trunc x with
      | Some z => Ok z
      | None => Raise (if F64.isnan x then ValueError else OverflowError)
      end
  end.

(** [convert_to_won(val)], app.py lines 22-29. *)
Definition convert_to_won (val : cell) : result Z :=
  if isna val || is_None val then Ok 0
  else z <- py_int val ;; Ok (z * 10000).

(** One record of [data['items']], restricted to the columns the pipeline
    reads. *)
Record item := {
  title : string;
  businessLargeCodeName : string;
  businessMiddleCodeName : string;
  floor : string;
  nearSubwayStation : string;
  deposit : cell;
  monthlyRent : cell;
  premium : cell;
  maintenanceFee : cell;
  size : F64.float;
  areaPrice : F64.float
}.

(** A row of the frame returned by [load_data]: the raw record and the
    columns added by lines 42-59. *)
Record listing := {
  raw : item;
  deposit_won : Z;
  monthlyRent_won : Z;
  premium_won : Z;
  maintenanceFee_won : Z;
  total_investment : Z;
  roi : F64.float;
  payback_period : F64.float;
  premium_per_size : F64.float
}.

(** [series.replace(0, float('nan'))] on an integer column: the column
    becomes float64, zeros become NaN. *)
Definition replace_0_nan (z : Z) : F64.float :=
  if z =? 0 then F64.nan else F64.of_Z z.

(** The range of a pandas int64 column. *)
Definition fits_int64 (z : Z) : Prop := - 2 ^ 63 <= z < 2 ^ 63.

(** *** Column operations *)

Definition Series (A : Type) := list A.

(** [series.apply(func)]: [func] is called on the entries in order; the
    first exception aborts the call. *)
Definition apply {A B : Type} (func : A -> result B) (s : Series A) : result (Series B) :=
  mapM func s.

(** Element-wise binary operation on two columns of one frame. *)
Fixpoint zip_with {A B C : Type} (f : A -> B -> C) (a : Series A) (b : Series B)
    : Series C :=
  match a, b with
  | x :: a', y :: b' => f x y :: zip_with f a' b'
  | _, _ => []
  end.

(** What an int64 operation stores: the exact result reduced modulo
    [2^64] into the range of int64. *)
Definition wrap64 (z : Z) : Z := (z + 2 ^ 63) mod 2 ^ 64 - 2 ^ 63.

(** [a + b] and [a * k] on int64 columns: numpy wraps around silently. *)
Definition add_int (a b : Series Z) : Series Z :=
  zip_with (fun x y => wrap64 (x + y)) a b.
Definition mul_int (a : Series Z) (k : Z) : Series Z :=
  map (fun z => wrap64 (z * k)) a.

(** [a.replace(0, float('nan'))] *)
Definition replace_0 (a : Series Z) : Series F64.float := map replace_0_nan a.

(** [a / b], an integer column over a float column: the integers are
    converted to doubles. *)
Definition truediv (a : Series Z) (b : Series F64.float) : Series F64.float :=
  zip_with (fun z y => F64.div (F64.of_Z z) y) a b.

(** [a * k], a float column times an integer. *)
Definition mul_float (a : Series F64.float) (k : Z) : Series F64.float :=
  map (fun x => F64.mul x (F64.of_Z k)) a.

(** The frame whose rows carry the raw records and the new columns. *)
Fixpoint frame (items : list item) (dw mw pw fw ti : Series Z)
    (ro pb pps : Series F64.float) : list listing :=
  match items, dw, mw, pw, fw with
  | it :: items', d :: dw', m :: mw', p :: pw', f :: fw' =>
      match ti, ro, pb, pps with
      | t :: ti', r :: ro', b :: pb', s :: pps' =>
          {| raw := it;
             deposit_won := d;
             monthlyRent_won := m;
             premium_won := p;
             maintenanceFee_won := f;
             total_investment := t;
             roi := r;
             payback_period := b;
             premium_per_size := s |}
          :: frame items' dw' mw' pw' fw' ti' ro' pb' pps'
      | _, _, _, _ => []
      end
  | _, _, _, _, _ => []
  end.

(** The dtype pandas gives a numeric column of the records: a column of
    integers is stored as it is, a column of nulls only stays an object
    column of [None], and any other column becomes float64, where an
    integer is rounded to the nearest double and a null becomes NaN.  (An
    integer beyond int64 next to a null or a double makes pandas keep
    Python objects instead; such columns are outside this development.) *)
Definition coerce (s : Series cell) : Series cell :=
  if forallb is_int s || forallb is_None s then s
  else map (fun c => PyFloat (to_float c)) s.

Definition with_amounts (it : item) (d m p f : cell) : item :=
  {| title := title it;
     businessLargeCodeName := businessLargeCodeName it;
     businessMiddleCodeName := businessMiddleCodeName it;
     floor := floor it;
     nearSubwayStation := nearSubwayStation it;
     deposit := d; monthlyRent := m; premium := p; maintenanceFee := f;
     size := size it; areaPrice := areaPrice it |}.

Fixpoint zip_amounts (items : list item) (d m p f : Series cell) : list item :=
  match items, d, m, p, f with
  | it :: items', c1 :: d', c2 :: m', c3 :: p', c4 :: f' =>
      with_amounts it c1 c2 c3 c4 :: zip_amounts items' d' m' p' f'
  | _, _, _, _, _ => []
  end.

(** [pd.DataFrame(data['items'])], line 39: the rows of the frame, each
    amount column with the dtype pandas infers for it. *)
Definition DataFrame (items : list item) : list item :=
  zip_amounts items
    (coerce (map deposit items)) (coerce (map monthlyRent items))
    (coerce (map premium items)) (coerce (map maintenanceFee items)).

(** Lines 42-59: the columns added to the frame.  The integer columns are
    int64 columns. *)
Definition add_columns (df : list item) : result (list listing) :=
  deposit_won <- apply convert_to_won (map deposit df) ;;
  monthlyRent_won <- apply convert_to_won (map monthlyRent df) ;;
  premium_won <- apply convert_to_won (map premium df) ;;
  maintenanceFee_won <- apply convert_to_won (map maintenanceFee df) ;;
  let total_investment := add_int deposit_won premium_won in
  let roi :=
    mul_float (truediv (mul_int monthlyRent_won 12) (replace_0 total_investment)) 100 in
  let payback_period :=
    truediv total_investment (replace_0 (mul_int monthlyRent_won 12)) in
  let premium_per_size := truediv premium_won (map size df) in
  Ok (frame df deposit_won monthlyRent_won premium_won maintenanceFee_won
            total_investment roi payback_period premium_per_size).

(** [load_data], lines 39-61, on the parsed [data['items']].  A frame built
    from no record has no column, and [df['deposit']] raises [KeyError]. *)
Definition load_data (items : list item) : result (list listing) :=
  match items with
  | [] => Raise KeyError
  | _ :: _ => add_columns (DataFrame items)
  end.

(** The frames whose four converted columns pandas stores as int64: every
    converted amount fits the range. *)
Definition int64_frame (df : list listing) : Prop :=
  Forall (fun r => fits_int64 (deposit_won r) /\ fits_int64 (monthlyRent_won r)
                   /\ fits_int64 (premium_won r) /\ fits_int64 (maintenanceFee_won r)) df.

(** A raw amount whose conversion fits int64. *)
Definition small_cell (c : cell) : bool :=
  match c with
  | PyNone => true
  | PyInt z => Z.abs z * 10000 <? 2 ^ 63
  | PyFloat x =>
      match F64.trunc x with
      | Some t => Z.abs t * 10000 <? 2 ^ 63
      | None => F64.isnan x
      end
  end.

Definition small_amounts (it : item) : bool :=
  small_cell (deposit it) && small_cell (monthlyRent it)
  && small_cell (premium it) && small_cell (maintenanceFee it).

(** What line 39 does to one cell: it keeps it, or stores it as a double. *)
Definition coerced (c c' : cell) : Prop := c' = c \/ c' = PyFloat (to_float c).

(** What the raw cell [c] of a record has become in the frame: [c'] in the
    raw column and [won] in the converted one. *)
Definition kept (c c' : cell) (won : Z) : Prop :=
  (forall z, c = PyInt z -> - 2 ^ 53 < z < 2 ^ 53 -> won = z * 10000)
  /\ (isna c = true -> won = 0 /\ isna c' = true)
  /\ (forall x, c = PyFloat x -> c' = PyFloat x).

(** The row of the frame and the record it comes from. *)
Record same_record (it it' : item) : Prop := {
  same_title : title it' = title it;
  same_businessLarge : businessLargeCodeName it' = businessLargeCodeName it;
  same_businessMiddle : businessMiddleCodeName it' = businessMiddleCodeName it;
  same_floor : floor it' = floor it;
  same_station : nearSubwayStation it' = nearSubwayStation it;
  same_size : size it' = size it;
  same_areaPrice : areaPrice it' = areaPrice it;
  same_deposit : coerced (deposit it) (deposit it');
  same_rent : coerced (monthlyRent it) (monthlyRent it');
  same_premium : coerced (premium it) (premium it');
  same_maint : coerced (maintenanceFee it) (maintenanceFee it')
}.

(** The amounts on which [int(val)] does not raise: every cell but the two
    infinite doubles. *)
Definition finite_cell (c : cell) : bool :=
  match c with
  | PyFloat (S754_infinity _) => false
  | _ => true
  end.

Definition finite_amounts (it : item) : bool :=
  finite_cell (deposit it) && finite_cell (monthlyRent it)
  && finite_cell (premium it) && finite_cell (maintenanceFee it).

(** What [load_data] stores in the columns of a row of the frame. *)
Record enriched (it : item) (r : listing) : Prop := {
  enriched_raw : raw r = it;
  enriched_deposit : convert_to_won (deposit it) = Ok (deposit_won r);
  enriched_rent : convert_to_won (monthlyRent it) = Ok (monthlyRent_won r);
  enriched_premium : convert_to_won (premium it) = Ok (premium_won r);
  enriched_maint : convert_to_won (maintenanceFee it) = Ok (maintenanceFee_won r);
  enriched_total : total_investment r = wrap64 (deposit_won r + premium_won r);
  enriched_roi :
    roi r = F64.mul (F64.div (F64.of_Z (wrap64 (monthlyRent_won r * 12)))
                             (replace_0_nan (total_investment r)))
                    (F64.of_Z 100);
  enriched_payback :
    payback_period r = F64.div (F64.of_Z (total_investment r))
                               (replace_0_nan (wrap64 (monthlyRent_won r * 12)));
  enriched_pps :
    premium_per_size r = F64.div (F64.of_Z (premium_won r)) (size it)
}.

(** ** The sidebar filter of [main] *)

Definition column {A : Type} (f : listing -> A) (df : list listing) : Series A :=
  map f df.

(** [series.isin(values)] *)
Definition isin (s : Series string) (values : list string) : Series bool :=
  map (fun x => existsb (String.eqb x) values) s.

(** [cell >= bound] and [cell <= bound] for an integer bound; a null cell
    compares false. *)
Definition cell_ge (c : cell) (bound : Z) : bool :=
  match c with
  | PyNone => false
  | PyInt z => bound <=? z
  | PyFloat x => F64.geb_Z x bound
  end.

Definition cell_le (c : cell) (bound : Z) : bool :=
  match c with
  | PyNone => false
  | PyInt z => z <=? bound
  | PyFloat x => F64.leb_Z x bound
  end.

(** [a & b] on boolean columns of the same frame. *)
Definition mask_and (a b : Series bool) : Series bool := zip_with andb a b.

Infix "&&&" := mask_and (at level 40, left associativity).

(** [series.between(left, right)]: [(series >= left) & (series <= right)]. *)
Definition between (s : Series cell) (left right : Z) : Series bool :=
  map (fun c => cell_ge c left) s &&& map (fun c => cell_le c right) s.

Definition between_float (s : Series F64.float) (left right : F64.float) : Series bool :=
  map (fun x => F64.leb left x) s &&& map (fun x => F64.leb x right) s.

(** [df[mask]]: the rows whose mask entry is [True], in frame order. *)
Fixpoint boolean_index {A : Type} (df : list A) (mask : Series bool) : list A :=
  match df, mask with
  | r :: df', b :: mask' =>
      if b then r :: boolean_index df' mask' else boolean_index df' mask'
  | _, _ => []
  end.

(** The values read from the sidebar widgets. *)
Record sidebar := {
  selected_business : list string;
  selected_floors : list string;
  rent_range : Z * Z;
  deposit_range : Z * Z;
  size_range : F64.float * F64.float
}.

(** Lines 103-109. *)
Definition filtered_df (df : list listing) (sb : sidebar) : list listing :=
  boolean_index df
    (isin (column (fun r => businessLargeCodeName (raw r)) df) (selected_business sb)
     &&& isin (column (fun r => floor (raw r)) df) (selected_floors sb)
     &&& between (column (fun r => monthlyRent (raw r)) df)
                 (fst (rent_range sb)) (snd (rent_range sb))
     &&& between (column (fun r => deposit (raw r)) df)
                 (fst (deposit_range sb)) (snd (deposit_range sb))
     &&& between_float (column (fun r => size (raw r)) df)
                       (fst (size_range sb)) (snd (size_range sb))).

(** The filter as the specification words it: the conjunction of the five
    predicates on one listing. *)
Definition in_set (x : string) (values : list string) : bool :=
  existsb (String.eqb x) values.

Definition in_range (c : cell) (range : Z * Z) : bool :=
  cell_ge c (fst range) && cell_le c (snd range).

Definition in_range_float (x : F64.float) (range : F64.float * F64.float) : bool :=
  F64.leb (fst range) x && F64.leb x (snd range).

Definition satisfies (sb : sidebar) (r : listing) : bool :=
  in_set (businessLargeCodeName (raw r)) (selected_business sb)
  && in_set (floor (raw r)) (selected_floors sb)
  && in_range (monthlyRent (raw r)) (rent_range sb)
  && in_range (deposit (raw r)) (deposit_range sb)
  && in_range_float (size (raw r)) (size_range sb).

(** [c2] is componentwise at least as wide as [c1]: larger membership sets
    and ranges that contain the ranges of [c1]. *)
Definition wider (c1 c2 : sidebar) : Prop :=
  incl (selected_business c1) (selected_business c2)
  /\ incl (selected_floors c1) (selected_floors c2)
  /\ fst (rent_range c2) <= fst (rent_range c1)
  /\ snd (rent_range c1) <= snd (rent_range c2)
  /\ fst (deposit_range c2) <= fst (deposit_range c1)
  /\ snd (deposit_range c1) <= snd (deposit_range c2)
  /\ F64.leb (fst (size_range c2)) (fst (size_range c1)) = true
  /\ F64.leb (snd (size_range c1)) (snd (size_range c2)) = true.

(** ** KPI means *)

Definition zero : F64.float := S754_zero false.

(** [series.mean()] with the default [skipna=True]: null entries add
    nothing to the sum and are not counted, and the mean of no entry at all
    is NaN.  The sum runs left to right from [+0.0].  numpy adds the same
    entries pairwise in blocks, so its rounding can differ from this one as
    soon as a partial sum is not exact; the statements on [mean] either do
    not depend on the value of the sum or are about sums that no order of
    addition rounds. *)
Definition nansum (s : Series F64.float) : F64.float :=
  fold_left (fun acc x => if F64.isnan x then acc else F64.add acc x) s zero.

Definition notna_count (s : Series F64.float) : nat :=
  List.length (filter (fun x => negb (F64.isnan x)) s).

Definition mean (s : Series F64.float) : F64.float :=
  let count := notna_count s in
  let the_sum := nansum s in
  if (0 <? Z.of_nat count) then F64.div the_sum (F64.of_Z (Z.of_nat count))
  else F64.nan.

(** An integer column is summed as float64. *)
Definition mean_int (s : Series Z) : F64.float := mean (map F64.of_Z s).

(** The mean as the specification words it: the arithmetic mean of the
    defined values, undefined when there is none. *)
Definition defined (s : Series F64.float) : Series F64.float :=
  filter (fun x => negb (F64.isnan x)) s.



(** The exact sum of integers, and the sum of their magnitudes, which
    bounds every partial sum in every order of addition. *)
Definition Zsum (zs : list Z) : Z := fold_right Z.add 0 zs.
Definition sum_abs (zs : list Z) : Z := fold_right (fun z acc => Z.abs z + acc) 0 zs.

Record kpi := {
  avg_rent : F64.float;
  avg_deposit : F64.float;
  avg_premium : F64.float;
  avg_area_price : F64.float;
  avg_maint : F64.float
}.

(** Lines 120-134: the five means over the filtered frame. *)
Definition kpi_means (filtered : list listing) : kpi :=
  {| avg_rent := mean_int (column monthlyRent_won filtered);
     avg_deposit := mean_int (column deposit_won filtered);
     avg_premium := mean_int (column premium_won filtered);
     avg_area_price := mean (column (fun r => areaPrice (raw r)) filtered);
     avg_maint := mean_int (column maintenanceFee_won filtered) |}.

(** ** Formatting *)

(** The decimal expansion [m * 2^e] scaled by [10^ndigits] and rounded half
    to even, as the correctly rounded [f] presentation type does. *)
Definition round_scaled (ndigits : nat) (m : positive) (e : Z) : Z :=
  let num := Z.pos m * 10 ^ Z.of_nat ndigits in
  match e with
  | Zneg p =>
      let den := 2 ^ Z.pos p in
      let q := num / den in
      let r := num mod den in
      if (den <? 2 * r) || ((2 * r =? den) && Z.odd q) then q + 1 else q
  | _ => num * 2 ^ e
  end.

Local Open Scope string_scope.

Definition digits (n : Z) : string := NilZero.string_of_uint (N.to_uint (Z.to_N n)).

(** Thousands separators of the [,] format option. *)
Fixpoint commas (s : string) : string :=
  match s with
  | EmptyString => EmptyString
  | String c rest =>
      let r := String.length rest in
      String c (if (Nat.eqb (Nat.modulo r 3) 0 && negb (Nat.eqb r 0))%bool
                then String "," (commas rest) else commas rest)
  end.

Fixpoint zeros (n : nat) : string :=
  match n with
  | O => EmptyString
  | S n' => String "0" (zeros n')
  end.

Definition pad_left (n : nat) (s : string) : string :=
  zeros (n - String.length s) ++ s.

Definition sign_str (s : bool) : string := if s then "-" else "".

(** [format(x, '[,].<ndigits>f')] *)
Definition format_f (grouping : bool) (ndigits : nat) (x : F64.float) : string :=
  match x with
  | S754_nan => "nan"
  | S754_infinity s => sign_str s ++ "inf"
  | _ =>
      let s := match x with S754_zero s | S754_finite s _ _ => s | _ => false end in
      let n := match x with S754_finite _ m e => round_scaled ndigits m e | _ => 0%Z end in
      let scale := (10 ^ Z.of_nat ndigits)%Z in
      let int_part := digits (n / scale) in
      sign_str s
      ++ (if grouping then commas int_part else int_part)
      ++ match ndigits with
         | O => ""
         | _ => "." ++ pad_left ndigits (digits (n mod scale))
         end
  end.

Definition eok : string := "억".
Definition man : string := "만".

(** [format_won(val)], lines 115-118. *)
Definition format_won (val : F64.float) : string :=
  if F64.geb_Z val 100000000
  then format_f false 1 (F64.div val (F64.of_Z 100000000)) ++ eok
  else format_f true 0 (F64.div val (F64.of_Z 10000)) ++ man.

Local Close Scope string_scope.


(** The conversion as the specification words it: null gives 0, any other
    amount its floor times 10,000. *)
Definition normalize_spec (val : cell) : option Z :=
  match val with
  | PyNone => Some 0
  | PyInt v => Some (v * 10000)
  | PyFloat x =>
      if F64.isnan x then Some 0
      else match F64.floor x with
           | Some f => Some (f * 10000)
           | None => None
           end
  end.

(** ** Sample data *)

(** The double [-1.5]. *)
Definition neg_1_5 : F64.float := S754_finite true 6755399441055744 (-52).

Definition mk_item (name business fl : string) (dep rent prem maint : cell)
    (sz price : F64.float) : item :=
  {| title := name; businessLargeCodeName := business;
     businessMiddleCodeName := business; floor := fl;
     nearSubwayStation := EmptyString;
     deposit := dep; monthlyRent := rent; premium := prem; maintenanceFee := maint;
     size := sz; areaPrice := price |}.

(** The end-to-end record of the specification, a record without any
    investment or rent, and a record whose rent is null. *)
Definition sample_items : list item :=
  [ mk_item "a" "food" "1" (PyInt 1000) (PyInt 50) (PyInt 2000) (PyInt 10)
            (F64.of_Z 30) (F64.of_Z 5);
    mk_item "b" "retail" "2" (PyInt 0) (PyInt 0) PyNone (PyFloat F64.nan)
            (F64.of_Z 20) F64.nan;
    mk_item "c" "food" "2" (PyFloat (F64.of_Z 500)) (PyFloat F64.nan) (PyFloat (F64.of_Z 0))
            (PyInt 5) (F64.of_Z 40) (F64.of_Z 7) ].

Definition sample_df : list listing :=
  match load_data sample_items with
  | Ok df => df
  | Raise _ => []
  end.

Definition row (n : nat) : listing :=
  nth n sample_df
      {| raw := mk_item "" "" "" PyNone PyNone PyNone PyNone F64.nan F64.nan;
         deposit_won := 0; monthlyRent_won := 0; premium_won := 0;
         maintenanceFee_won := 0; total_investment := 0;
         roi := F64.nan; payback_period := F64.nan; premium_per_size := F64.nan |}.

(** Every business type and floor of the sample, and ranges from 0 to the
    largest rent, deposit and size. *)
Definition sb_all : sidebar :=
  {| selected_business := ["food"; "retail"]%string;
     selected_floors := ["1"; "2"]%string;
     rent_range := (0, 50);
     deposit_range := (0, 1000);
     size_range := (zero, F64.of_Z 40) |}.

Definition sb_narrow : sidebar :=
  {| selected_business := ["food"]%string;
     selected_floors := ["1"]%string;
     rent_range := (10, 50);
     deposit_range := (1000, 1000);
     size_range := (F64.of_Z 30, F64.of_Z 30) |}.

(** The rent range [(0, 0)] of the specification's last test. *)
Definition sb_zero_rent : sidebar :=
  {| selected_business := ["food"; "retail"]%string;
     selected_floors := ["1"; "2"]%string;
     rent_range := (0, 0);
     deposit_range := (0, 1000);
     size_range := (zero, F64.of_Z 40) |}.

Definition is_digit (c : ascii) : bool :=
  (48 <=? nat_of_ascii c)%nat && (nat_of_ascii c <=? 57)%nat.

Definition has_digit (s : string) : bool :=
  existsb is_digit (list_ascii_of_string s).

(** The first character of a rendered number is a sign, a digit or the [i]
    of [inf]; never the [n] of [nan]. *)
Definition starts_numeric (s : string) : Prop :=
  exists c rest, s = String c rest /\ c <> "n"%char.

(** ** The sidebar defaults, the KPI cards and the detail panel of [main] *)

(** [series.unique()]: the distinct values in order of first appearance. *)
Fixpoint unique (s : Series string) : list string :=
  match s with
  | [] => []
  | x :: s' => x :: filter (fun y => negb (String.eqb y x)) (unique s')
  end.

(** [sorted(...)] on strings: ascending code points, which is the byte
    order of their UTF-8 encoding. *)
Module StringOrder <: Orders.TotalLeBool.
Definition t := string.
Definition leb := String.leb.
Lemma leb_total (x y : t) : leb x y = true \/ leb y x = true.
Proof. apply String.leb_total. Qed.
End StringOrder.

Module StringSort := Mergesort.Sort StringOrder.

Definition sorted (l : list string) : list string := StringSort.sort l.

(** The dtype of a raw numeric column: int64 when every cell is an
    integer, float64 otherwise, a null becoming NaN. *)
Definition all_int (s : Series cell) : option (list Z) :=
  fold_right (fun c acc =>
                match c, acc with
                | PyInt z, Some zs => Some (z :: zs)
                | _, _ => None
                end) (Some []) s.

(** The largest entry that is not NaN, NaN when there is none. *)
Definition nanmax (s : Series F64.float) : F64.float :=
  fold_left (fun acc x =>
               if F64.isnan x then acc
               else if F64.isnan acc then x
               else if F64.leb acc x then x else acc) s F64.nan.

(** [series.max()] with the default [skipna=True]. *)
Definition series_max (s : Series cell) : cell :=
  match all_int s with
  | Some (z :: zs) => PyInt (fold_left Z.max zs z)
  | Some [] => PyFloat F64.nan
  | None => PyFloat (nanmax (map to_float s))
  end.

(** Zeros and finite doubles, as opposed to NaN and the infinities. *)
Definition is_real (x : F64.float) : bool :=
  match x with
  | S754_zero _ | S754_finite _ _ _ => true
  | _ => false
  end.

Definition is_zero (x : F64.float) : bool :=
  match x with S754_zero _ => true | _ => false end.

Definition is_inf (x : F64.float) : bool :=
  match x with S754_infinity _ => true | _ => false end.

(** The largest integer a Streamlit widget accepts as a bound. *)
Definition MAX_SAFE_INTEGER : Z := 2 ^ 53 - 1.

(** [st.slider(label, min_value, max_value, value)] before the user moves
    it: the widget holds [value].  Streamlit refuses a slider whose two
    bounds are equal, an integer bound beyond [MAX_SAFE_INTEGER] in
    magnitude and an infinite bound.  An upper bound below the lower one is
    counted as refused too: what the widget would hold then is not
    described, and no statement below is about such a sidebar. *)
Definition slider (min_value max_value : Z) (value : Z * Z) : result (Z * Z) :=
  if (max_value <=? min_value)
     || (MAX_SAFE_INTEGER <? Z.abs min_value) || (MAX_SAFE_INTEGER <? Z.abs max_value)
  then Raise StreamlitAPIException
  else Ok value.

Definition slider_float (min_value max_value : F64.float) (value : F64.float * F64.float)
    : result (F64.float * F64.float) :=
  if F64.leb max_value min_value || is_inf min_value || is_inf max_value
  then Raise StreamlitAPIException
  else Ok value.

(** Lines 79-100: the values the sidebar widgets hold before the user
    touches them.  A multiselect starts with its [default], a range slider
    with its [value]; the two [int(...max())] calls and the three sliders
    can raise. *)
Definition default_sidebar (df : list listing) : result sidebar :=
  let business_types := sorted (unique (column (fun r => businessLargeCodeName (raw r)) df)) in
  let floors := sorted (unique (column (fun r => floor (raw r)) df)) in
  rent_max <- py_int (series_max (column (fun r => monthlyRent (raw r)) df)) ;;
  rent_range <- slider 0 rent_max (0, rent_max) ;;
  deposit_max <- py_int (series_max (column (fun r => deposit (raw r)) df)) ;;
  deposit_range <- slider 0 deposit_max (0, deposit_max) ;;
  let size_max := nanmax (column (fun r => size (raw r)) df) in
  size_range <- slider_float zero size_max (zero, size_max) ;;
  Ok {| selected_business := business_types;
        selected_floors := floors;
        rent_range := rent_range;
        deposit_range := deposit_range;
        size_range := size_range |}.

(** A double above zero that is not a whole number. *)
Definition positive_fraction (x : F64.float) : bool :=
  match x with
  | S754_finite false m (Zneg p) => negb (Z.pos m mod 2 ^ Z.pos p =? 0)
  | _ => false
  end.

(** A row whose rent and deposit are not below 0 and whose size is not
    below [0.0]. *)
Definition nonneg_row (r : listing) : bool :=
  cell_ge (monthlyRent (raw r)) 0 && cell_ge (deposit (raw r)) 0
  && F64.leb zero (size (raw r)).

(** Lines 120-134: the strings of the five KPI cards. *)
Definition kpi_cards (filtered : list listing) : list string :=
  let k := kpi_means filtered in
  [ format_won (avg_rent k);
    format_won (avg_deposit k);
    format_won (avg_premium k);
    (format_f true 0 (avg_area_price k) ++ man)%string;
    format_won (avg_maint k) ].

(** Lines 196-198: the options of the title selectbox and the row shown for
    the selected title; [.iloc[0]] on a frame without rows raises
    [IndexError], rendered by [None]. *)
Definition title_options (filtered : list listing) : list string :=
  unique (column (fun r => title (raw r)) filtered).

Definition iloc_0 {A : Type} (df : list A) : option A :=
  match df with
  | [] => None
  | r :: _ => Some r
  end.

Definition selected_item (filtered : list listing) (selected_title : string)
    : option listing :=
  iloc_0 (boolean_index filtered
            (map (fun t => String.eqb t selected_title)
                 (column (fun r => title (raw r)) filtered))).

(** Lines 209-210: the two ratio figures of the info box, [:.2f] and
    [:.1f]. *)
Definition roi_text (item : listing) : string := format_f false 2 (roi item).
Definition payback_text (item : listing) : string := format_f false 1 (payback_period item).

(** Records whose rent and deposit are all integers, one of them with a
    negative deposit, and a record of size zero. *)
Definition sample_int_items : list item :=
  [ mk_item "a" "food" "1" (PyInt 1000) (PyInt 50) (PyInt 2000) (PyInt 10)
            (F64.of_Z 30) (F64.of_Z 5);
    mk_item "b" "retail" "2" (PyInt 0) (PyInt 0) PyNone (PyInt 0)
            (F64.of_Z 20) F64.nan;
    mk_item "a" "cafe" "1" (PyInt (-5)) (PyInt 10) (PyInt 300) (PyInt 1)
            (F64.of_Z 40) (F64.of_Z 7);
    mk_item "e" "cafe" "3" (PyInt 7) (PyInt 10) (PyInt 300) (PyInt 1)
            zero (F64.of_Z 7) ].

Definition sample_int_df : list listing :=
  match load_data sample_int_items with
  | Ok df => df
  | Raise _ => []
  end.

(** Records whose rent is null throughout. *)
Definition sample_null_rent_items : list item :=
  [ mk_item "a" "food" "1" (PyInt 1000) (PyFloat F64.nan) (PyInt 2000) (PyInt 10)
            (F64.of_Z 30) (F64.of_Z 5);
    mk_item "b" "retail" "2" (PyInt 0) (PyFloat F64.nan) PyNone (PyInt 0)
            (F64.of_Z 20) F64.nan ].

Definition sample_null_rent_df : list listing :=
  match load_data sample_null_rent_items with
  | Ok df => df
  | Raise _ => []
  end.

(** Records of a float64 rent column whose largest rent is 50.5. *)
Definition sample_fraction_items : list item :=
  [ mk_item "a" "food" "1" (PyInt 1000) (PyFloat (F64.div (F64.of_Z 101) (F64.of_Z 2)))
            (PyInt 2000) (PyInt 10) (F64.of_Z 30) (F64.of_Z 5);
    mk_item "b" "retail" "2" (PyInt 10) (PyFloat (F64.of_Z 10)) PyNone (PyInt 0)
            (F64.of_Z 20) F64.nan ].

Definition sample_fraction_df : list listing :=
  match load_data sample_fraction_items with
  | Ok df => df
  | Raise _ => []
  end.



(** A column stored as float64 because of one null: the integer [2^53 + 1]
    is rounded before it is converted. *)
Definition rounded_items : list item :=
  [ mk_item "u" "food" "1" (PyInt (2 ^ 53 + 1)) (PyInt 2000) (PyInt 1) (PyInt 1)
            (F64.of_Z 30) (F64.of_Z 5);
    mk_item "v" "food" "1" PyNone PyNone (PyInt 2) (PyInt 2)
            (F64.of_Z 30) (F64.of_Z 5) ].

(** Rows of [sample_int_df], with the first row of [sample_df] as the
    default. *)
Definition int_row (n : nat) : listing := nth n sample_int_df (row 0).

(** [r] is the first row of the frame whose title is [t]. *)
Definition first_with_title (filtered : list listing) (t : string) (r : listing) : Prop :=
  exists before after,
    filtered = before ++ r :: after
    /\ title (raw r) = t
    /\ Forall (fun p => title (raw p) <> t) before.

(** ** Facts on binary64 rounding *)

Module F64Facts.
Import F64.

Lemma digits2_pos_size (p : positive) : digits2_pos p = Pos.size p.
Proof. induction p; simpl; congruence. Qed.

Lemma digits2_pos_lower (p : positive) : 2 ^ (Z.pos (digits2_pos p) - 1) <= Z.pos p.
Proof.
  rewrite digits2_pos_size.
  pose proof (Pos.size_le p) as H.
  assert (E : 2 ^ Z.pos (Pos.size p) = 2 * 2 ^ (Z.pos (Pos.size p) - 1)).
  { rewrite <- Z.pow_succ_r by lia. f_equal. lia. }
  assert (Hz : (2 ^ Z.pos (Pos.size p) <= Z.pos p~0)%Z).
  { rewrite <- Pos2Z.inj_pow. apply Pos2Z.pos_le_pos. exact H. }
  lia.
Qed.

Lemma digits2_pos_gt (p : positive) : Z.pos p < 2 ^ Z.pos (digits2_pos p).
Proof.
  rewrite digits2_pos_size, <- Pos2Z.inj_pow.
  apply Pos2Z.pos_lt_pos, Pos.size_gt.
Qed.

Lemma iter_xO_shift (p d : positive) : Z.pos (Pos.iter xO p d) = Z.pos p * 2 ^ Z.pos d.
Proof.
  rewrite <- Z.shiftl_mul_pow2 by lia. cbn [Z.shiftl].
  apply Pos.iter_swap_gen. reflexivity.
Qed.

Lemma digits2_pos_upper (p : positive) (k : Z) :
  0 <= k -> Z.pos p < 2 ^ k -> Z.pos (digits2_pos p) <= k.
Proof.
  intros Hk Hp.
  pose proof (digits2_pos_lower p) as Hl.
  destruct (Z.le_gt_cases (Z.pos (digits2_pos p)) k) as [|Hgt]; [assumption|].
  assert (2 ^ k <= 2 ^ (Z.pos (digits2_pos p) - 1)) by (apply Z.pow_le_mono_r; lia).
  lia.
Qed.

Lemma shr_1_m (mrs : shr_record) :
  0 <= shr_m mrs -> shr_m (shr_1 mrs) = shr_m mrs / 2.
Proof.
  destruct mrs as [m r s]; cbn [shr_m shr_1]; intros Hm.
  destruct m as [|[p|p|]|p]; cbn [shr_m]; try reflexivity; try lia.
  - apply Z.div_unique with 1; lia.
  - apply Z.div_unique with 0; lia.
Qed.

Lemma pow2_xO (p : positive) : 2 ^ Z.pos p~0 = 2 ^ Z.pos p * 2 ^ Z.pos p.
Proof. rewrite <- Z.pow_add_r by lia. f_equal. lia. Qed.

Lemma pow2_xI (p : positive) : 2 ^ Z.pos p~1 = 2 * (2 ^ Z.pos p * 2 ^ Z.pos p).
Proof.
  rewrite <- Z.pow_add_r, <- Z.pow_succ_r by lia. f_equal. lia.
Qed.

Lemma iter_shr_1_m (p : positive) : forall mrs,
  0 <= shr_m mrs -> shr_m (iter_pos shr_1 p mrs) = shr_m mrs / 2 ^ Z.pos p.
Proof.
  assert (Hd : forall a b c, 0 < b -> 0 < c -> a / b / c = a / (b * c)).
  { intros. apply Z.div_div; lia. }
  assert (Hnn : forall a b, 0 <= a -> 0 < b -> 0 <= a / b).
  { intros. apply Z.div_pos; lia. }
  assert (Hp : forall q, 0 < 2 ^ Z.pos q) by (intros; apply Z.pow_pos_nonneg; lia).
  induction p as [p IH|p IH|]; intros mrs Hm; cbn [iter_pos]; try specialize (Hp p).
  - assert (H1 : 0 <= shr_m (shr_1 mrs)) by (rewrite shr_1_m by assumption; apply Hnn; lia).
    assert (H2 : 0 <= shr_m (iter_pos shr_1 p (shr_1 mrs))) by (rewrite IH by assumption; apply Hnn; lia).
    rewrite IH, IH, shr_1_m by assumption.
    rewrite !Hd by lia. rewrite pow2_xI. f_equal; lia.
  - assert (H2 : 0 <= shr_m (iter_pos shr_1 p mrs)) by (rewrite IH by assumption; apply Hnn; lia).
    rewrite IH, IH by assumption.
    rewrite Hd by lia. rewrite pow2_xO. reflexivity.
  - rewrite shr_1_m by assumption. reflexivity.
Qed.

Lemma shr_record_of_loc_m (m : Z) (l : location) : shr_m (shr_record_of_loc m l) = m.
Proof. destruct l as [|[]]; reflexivity. Qed.

Lemma shr_m_spec (mrs : shr_record) (e n : Z) :
  0 <= shr_m mrs ->
  shr_m (fst (shr mrs e n)) = (if 0 <? n then shr_m mrs / 2 ^ n else shr_m mrs)
  /\ snd (shr mrs e n) = (if 0 <? n then e + n else e).
Proof.
  intros Hm. destruct n as [|p|p]; cbn [shr fst snd Z.ltb Z.compare]; auto.
  split; [apply iter_shr_1_m; assumption | reflexivity].
Qed.

Lemma shr_fexp_spec (m e : Z) (l : location) :
  0 <= m ->
  let n := fexp prec emax (Zdigits2 m + e) - e in
  shr_m (fst (shr_fexp prec emax m e l)) = (if 0 <? n then m / 2 ^ n else m)
  /\ snd (shr_fexp prec emax m e l) = (if 0 <? n then e + n else e).
Proof.
  intros Hm n. unfold shr_fexp. fold n.
  pose proof (@shr_m_spec (shr_record_of_loc m l) e n) as H.
  rewrite shr_record_of_loc_m in H. apply H. assumption.
Qed.

Lemma shr_fexp_nonneg (m e : Z) (l : location) :
  0 <= m -> 0 <= shr_m (fst (shr_fexp prec emax m e l)).
Proof.
  intros Hm. destruct (shr_fexp_spec e l Hm) as [-> _].
  destruct (0 <? _) eqn:E; [|assumption].
  apply Z.div_pos; [assumption|]. apply Z.pow_pos_nonneg; lia.
Qed.

Lemma round_nearest_even_ge (m : Z) (l : location) :
  m <= round_nearest_even m l <= m + 1.
Proof.
  destruct l as [|[]]; cbn [round_nearest_even]; try lia.
  destruct (Z.even m); lia.
Qed.

(** Rounding a non-negative mantissa never produces NaN. *)
Lemma binary_round_aux_not_nan (sx : bool) (mx ex : Z) (lx : location) :
  0 <= mx -> binary_round_aux prec emax sx mx ex lx <> S754_nan.
Proof.
  intros Hm. unfold binary_round_aux.
  pose proof (shr_fexp_nonneg ex lx Hm) as H1.
  destruct (shr_fexp prec emax mx ex lx) as [mrs' e'] eqn:E1. cbn [fst] in H1.
  pose proof (round_nearest_even_ge (shr_m mrs') (loc_of_shr_record mrs')) as Hr.
  assert (H2 : 0 <= round_nearest_even (shr_m mrs') (loc_of_shr_record mrs')) by lia.
  pose proof (shr_fexp_nonneg e' loc_Exact H2) as H3.
  destruct (shr_fexp prec emax _ e' loc_Exact) as [mrs'' e''] eqn:E2. cbn [fst] in H3.
  destruct (shr_m mrs'') as [|q|q]; [discriminate| |lia].
  destruct (e'' <=? emax - prec); discriminate.
Qed.

Lemma fexp_small (x : Z) : -1000 <= x -> fexp prec emax x = x - 53.
Proof. intros H. unfold fexp, emin, prec, emax. lia. Qed.

Lemma shift_pos (p : positive) (n : Z) :
  0 <= n <= Z.pos (digits2_pos p) - 1 -> 0 < Z.pos p / 2 ^ n <= Z.pos p.
Proof.
  intros Hn. pose proof (digits2_pos_lower p) as Hl.
  assert (H2 : 0 < 2 ^ n) by (apply Z.pow_pos_nonneg; lia).
  assert (2 ^ n <= 2 ^ (Z.pos (digits2_pos p) - 1)) by (apply Z.pow_le_mono_r; lia).
  split.
  - apply Z.div_str_pos. lia.
  - apply Z.div_le_upper_bound; [assumption|]. nia.
Qed.

(** One rounding step on a positive mantissa of at most 64 bits and a small
    exponent: the result is positive, bounded, and the exponent stays small. *)
Lemma shr_fexp_small (p : positive) (e : Z) (l : location) (k : Z) :
  Z.pos p < 2 ^ k -> 0 <= k <= 70 -> -200 <= e <= 200 ->
  0 < shr_m (fst (shr_fexp prec emax (Z.pos p) e l)) <= Z.pos p
  /\ e <= snd (shr_fexp prec emax (Z.pos p) e l) <= e + 20.
Proof.
  intros Hp Hk He.
  assert (Hm : 0 <= Z.pos p) by lia.
  destruct (shr_fexp_spec e l Hm) as [-> ->].
  cbn [Zdigits2].
  pose proof (digits2_pos_upper (proj1 Hk) Hp) as Hd.
  assert (Hd1 : 1 <= Z.pos (digits2_pos p)) by lia.
  rewrite fexp_small by lia.
  destruct (0 <? _) eqn:E.
  - apply Z.ltb_lt in E. split; [|lia].
    apply shift_pos. lia.
  - split; lia.
Qed.

Lemma binary_round_aux_finite (sx : bool) (mz : positive) (ez : Z) (l : location) :
  Z.pos mz < 2 ^ 64 -> -100 <= ez <= 100 ->
  exists m e, binary_round_aux prec emax sx (Z.pos mz) ez l = S754_finite sx m e.
Proof.
  intros Hm He. unfold binary_round_aux.
  destruct (@shr_fexp_small mz ez l 64 Hm ltac:(lia) ltac:(lia)) as [H1 H1e].
  destruct (shr_fexp prec emax (Z.pos mz) ez l) as [mrs' e'] eqn:E1. cbn [fst snd] in H1, H1e.
  pose proof (round_nearest_even_ge (shr_m mrs') (loc_of_shr_record mrs')) as Hr.
  destruct (round_nearest_even (shr_m mrs') (loc_of_shr_record mrs')) as [|q|q] eqn:Eq; try lia.
  assert (Hq : Z.pos q < 2 ^ 65) by (change (2 ^ 65) with (2 ^ 64 + 2 ^ 64); lia).
  destruct (@shr_fexp_small q e' loc_Exact 65 Hq ltac:(lia) ltac:(lia)) as [H2 H2e].
  destruct (shr_fexp prec emax (Z.pos q) e' loc_Exact) as [mrs'' e''] eqn:E2. cbn [fst snd] in H2, H2e.
  destruct (shr_m mrs'') as [|r|r]; try lia.
  assert (E : (e'' <=? emax - prec) = true) by (apply Z.leb_le; unfold emax, prec; lia).
  rewrite E. eauto.
Qed.

(** An integer of the int64 range other than zero converts to a finite
    double. *)
Lemma of_Z_finite (z : Z) :
  fits_int64 z -> z <> 0 -> exists s m e, of_Z z = S754_finite s m e.
Proof.
  intros Hz Hnz. unfold of_Z, binary_normalize.
  assert (Hround : forall sx mx, Z.pos mx <= 2 ^ 63 ->
            exists m e, binary_round prec emax sx mx 0 = S754_finite sx m e).
  { intros sx mx Hmx. unfold binary_round.
    assert (Hd : Z.pos (digits2_pos mx) <= 64) by (apply digits2_pos_upper; lia).
    rewrite fexp_small by lia.
    unfold shl_align.
    destruct (Z.pos (digits2_pos mx) + 0 - 53 - 0) as [|d|d] eqn:Ed.
    - apply binary_round_aux_finite; lia.
    - apply binary_round_aux_finite; lia.
    - apply binary_round_aux_finite; [|lia].
      rewrite iter_xO_shift.
      pose proof (digits2_pos_gt mx) as Hg.
      assert (Hs : Z.pos (digits2_pos mx) + Z.pos d = 53) by lia.
      assert (Hpw : 2 ^ Z.pos (digits2_pos mx) * 2 ^ Z.pos d = 2 ^ 53).
      { rewrite <- Z.pow_add_r by lia. f_equal. assumption. }
      assert (0 < 2 ^ Z.pos d) by (apply Z.pow_pos_nonneg; lia).
      assert (2 ^ 53 < 2 ^ 64) by reflexivity.
      nia. }
  unfold fits_int64 in Hz.
  destruct z as [|p|p]; [congruence| |].
  - destruct (Hround false p) as (m & e & H); [lia|]. eauto.
  - destruct (Hround true p) as (m & e & H); [lia|]. eauto.
Qed.

Lemma div_eucl_quot_nonneg (a b : Z) : 0 <= a -> 0 < b -> 0 <= fst (Z.div_eucl a b).
Proof.
  intros Ha Hb. change (fst (Z.div_eucl a b)) with (a / b). apply Z.div_pos; lia.
Qed.

Lemma SFdiv_core_binary_nonneg (m1 m2 : positive) (e1 e2 : Z) :
  0 <= fst (fst (SFdiv_core_binary prec emax (Z.pos m1) e1 (Z.pos m2) e2)).
Proof.
  unfold SFdiv_core_binary.
  set (sh := e1 - e2 - _).
  set (m' := match sh with Z0 => Z.pos m1 | Z.pos _ => Z.shiftl (Z.pos m1) sh | Z.neg _ => 0 end).
  assert (Hm' : 0 <= m').
  { subst m'. destruct sh; try lia. apply Z.shiftl_nonneg. lia. }
  pose proof (@div_eucl_quot_nonneg m' (Z.pos m2) Hm' ltac:(lia)) as Hq.
  destruct (Z.div_eucl m' (Z.pos m2)) as [q r]. exact Hq.
Qed.

Lemma div_nan_r (x : float) : div x nan = nan.
Proof. destruct x; reflexivity. Qed.

Lemma div_not_nan (x y : float) :
  isnan x = false -> is_finite y -> isnan (div x y) = false.
Proof.
  intros Hx (sy & my & ey & ->).
  destruct x as [sx|sx| |sx mx ex]; try discriminate; try reflexivity.
  unfold div, SFdiv.
  pose proof (SFdiv_core_binary_nonneg mx my ex ey) as Hq.
  destruct (SFdiv_core_binary prec emax (Z.pos mx) ex (Z.pos my) ey) as [[mz ez] lz].
  cbn [fst] in Hq.
  pose proof (@binary_round_aux_not_nan (xorb sx sy) mz ez lz Hq) as Hn.
  destruct (binary_round_aux _ _ _ _ _ _); congruence || reflexivity.
Qed.

Lemma mul_not_nan (x y : float) :
  isnan x = false -> is_finite y -> isnan (mul x y) = false.
Proof.
  intros Hx (sy & my & ey & ->).
  destruct x as [sx|sx| |sx mx ex]; try discriminate; try reflexivity.
  unfold mul, SFmul.
  pose proof (@binary_round_aux_not_nan (xorb sx sy) (Z.pos (mx * my)) (ex + ey) loc_Exact
                ltac:(lia)) as Hn.
  destruct (binary_round_aux _ _ _ _ _ _); congruence || reflexivity.
Qed.

Lemma isnan_true (x : float) : isnan x = true <-> x = nan.
Proof. destruct x; split; intros H; try discriminate; reflexivity. Qed.

Lemma of_Z_not_nan (z : Z) : fits_int64 z -> isnan (of_Z z) = false.
Proof.
  intros Hz. destruct (Z.eq_dec z 0) as [->|Hnz]; [reflexivity|].
  destruct (of_Z_finite Hz Hnz) as (s & m & e & ->). reflexivity.
Qed.

Lemma leb_nan_r (x : float) : leb x nan = false.
Proof. destruct x; reflexivity. Qed.

(** *** The order of [leb] *)

Lemma leb_finite (s1 s2 : bool) (m1 m2 : positive) (e1 e2 : Z) :
  leb (S754_finite s1 m1 e1) (S754_finite s2 m2 e2) = true <->
  match s1, s2 with
  | true, false => True
  | false, true => False
  | false, false => e1 < e2 \/ (e1 = e2 /\ Z.pos m1 <= Z.pos m2)
  | true, true => e2 < e1 \/ (e1 = e2 /\ Z.pos m2 <= Z.pos m1)
  end.
Proof.
  unfold leb, SFleb, SFcompare.
  change (Pos.compare_cont Eq m1 m2) with (Pos.compare m1 m2).
  destruct s1, s2; destruct (Z.compare_spec e1 e2);
    try destruct (Pos.compare_spec m1 m2); cbn [CompOpp];
    split; intros Hx; try reflexivity; try discriminate; try lia; try exact I.
Qed.

Lemma leb_trans (x y z : float) :
  leb x y = true -> leb y z = true -> leb x z = true.
Proof.
  destruct x as [sx|sx| |sx mx ex], y as [sy|sy| |sy my ey], z as [sz|sz| |sz mz ez];
    try (intros; discriminate);
    try (rewrite !leb_finite; destruct sx, sy, sz; intros; lia);
    try (destruct sx); try (destruct sy); try (destruct sz);
    intros H1 H2; try reflexivity; try discriminate.
Qed.

Lemma leb_refl (x : float) : isnan x = false -> leb x x = true.
Proof.
  destruct x as [s|s| |s m e]; try discriminate; intros _.
  - reflexivity.
  - destruct s; reflexivity.
  - apply leb_finite. destruct s; lia.
Qed.

Lemma leb_bound_incl (lo hi : float) :
  (leb lo lo && leb lo hi = leb lo hi)%bool /\ (leb lo hi && leb hi hi = leb lo hi)%bool.
Proof.
  split.
  - destruct (isnan lo) eqn:E.
    + apply isnan_true in E. subst lo. reflexivity.
    + rewrite leb_refl by assumption. reflexivity.
  - destruct (isnan hi) eqn:E.
    + apply isnan_true in E. subst hi. rewrite leb_nan_r. reflexivity.
    + rewrite leb_refl by assumption. apply andb_true_r.
Qed.

(** *** Comparison with an integer bound *)

Lemma ge_cmp_mono (v a b : Z) :
  b <= a ->
  match v ?= a with Gt | Eq => true | Lt => false end = true ->
  match v ?= b with Gt | Eq => true | Lt => false end = true.
Proof.
  intros Hab. destruct (Z.compare_spec v a), (Z.compare_spec v b);
    intros Hc; try reflexivity; try discriminate; lia.
Qed.

Lemma le_cmp_mono (v a b : Z) :
  a <= b ->
  match v ?= a with Lt | Eq => true | Gt => false end = true ->
  match v ?= b with Lt | Eq => true | Gt => false end = true.
Proof.
  intros Hab. destruct (Z.compare_spec v a), (Z.compare_spec v b);
    intros Hc; try reflexivity; try discriminate; lia.
Qed.

Lemma scale_le (a b : Z) (p : positive) : a <= b -> a * 2 ^ Z.pos p <= b * 2 ^ Z.pos p.
Proof.
  intros Hab. assert (0 < 2 ^ Z.pos p) by (apply Z.pow_pos_nonneg; lia). nia.
Qed.

Lemma geb_Z_mono (x : float) (a b : Z) :
  b <= a -> geb_Z x a = true -> geb_Z x b = true.
Proof.
  intros Hab. unfold geb_Z, compare_Z.
  destruct x as [s|s| |s m e]; try (intros; assumption).
  - apply ge_cmp_mono; assumption.
  - destruct e as [|p|p]; apply ge_cmp_mono; try assumption.
    apply scale_le; assumption.
Qed.

Lemma leb_Z_mono (x : float) (a b : Z) :
  a <= b -> leb_Z x a = true -> leb_Z x b = true.
Proof.
  intros Hab. unfold leb_Z, compare_Z.
  destruct x as [s|s| |s m e]; try (intros; assumption).
  - apply le_cmp_mono; assumption.
  - destruct e as [|p|p]; apply le_cmp_mono; try assumption.
    apply scale_le; assumption.
Qed.

(** *** Integers below [2^53] convert exactly *)

Lemma digits2_pos_iter_xO (p k : positive) :
  Z.pos (digits2_pos (Pos.iter xO p k)) = Z.pos (digits2_pos p) + Z.pos k.
Proof.
  induction k as [|k IH] using Pos.peano_ind.
  - cbn [Pos.iter digits2_pos]. lia.
  - rewrite Pos.iter_succ. cbn [digits2_pos]. lia.
Qed.

(** A mantissa of exactly 53 bits with an exponent in range is kept as it
    is by the rounding. *)
Lemma binary_round_aux_canonical (sx : bool) (m : positive) (e : Z) :
  Z.pos (digits2_pos m) = 53 -> -1000 <= e <= 971 ->
  binary_round_aux prec emax sx (Z.pos m) e loc_Exact = S754_finite sx m e.
Proof.
  intros Hd He.
  assert (Hshr : shr_fexp prec emax (Z.pos m) e loc_Exact
                 = ({| shr_m := Z.pos m; shr_r := false; shr_s := false |}, e)).
  { unfold shr_fexp. cbn [Zdigits2]. rewrite fexp_small by lia.
    replace (Z.pos (digits2_pos m) + e - 53 - e) with 0 by lia. reflexivity. }
  unfold binary_round_aux. rewrite Hshr.
  cbn [shr_m loc_of_shr_record round_nearest_even]. rewrite Hshr. cbn [shr_m].
  assert (E : (e <=? emax - prec) = true) by (apply Z.leb_le; unfold emax, prec; lia).
  rewrite E. reflexivity.
Qed.

Lemma compare_scale (a b k : Z) : 0 < k -> (a * k ?= b * k) = (a ?= b).
Proof.
  intros Hk. destruct (Z.compare_spec a b), (Z.compare_spec (a * k) (b * k));
    try reflexivity; nia.
Qed.

Lemma binary_round_exact (sx : bool) (mx : positive) (b : Z) :
  Z.pos mx < 2 ^ 53 ->
  compare_Z (binary_round prec emax sx mx 0) b
  = Some ((if sx then Z.neg mx else Z.pos mx) ?= b).
Proof.
  intros Hmx. unfold binary_round.
  assert (Hd : Z.pos (digits2_pos mx) <= 53) by (apply digits2_pos_upper; lia).
  rewrite fexp_small by lia. unfold shl_align. rewrite Z.sub_0_r.
  destruct (Z.pos (digits2_pos mx) + 0 - 53) as [|k|k] eqn:Ek; try lia.
  - rewrite binary_round_aux_canonical by lia.
    cbn [compare_Z]. rewrite Z.pow_0_r, Z.mul_1_r. reflexivity.
  - rewrite binary_round_aux_canonical.
    + cbn [compare_Z]. f_equal.
      assert (Hp : 0 < 2 ^ Z.pos k) by (apply Z.pow_pos_nonneg; lia).
      rewrite <- (@compare_scale _ b (2 ^ Z.pos k) Hp).
      destruct sx; [|rewrite iter_xO_shift; reflexivity].
      change (Z.neg (Pos.iter xO mx k)) with (- Z.pos (Pos.iter xO mx k)).
      rewrite iter_xO_shift. change (Z.neg mx) with (- Z.pos mx).
      rewrite Z.mul_opp_l. reflexivity.
    + rewrite digits2_pos_iter_xO. lia.
    + lia.
Qed.

Lemma compare_Z_of_Z (z b : Z) :
  - 2 ^ 53 < z < 2 ^ 53 -> compare_Z (of_Z z) b = Some (z ?= b).
Proof.
  intros Hz. destruct z as [|p|p].
  - reflexivity.
  - apply (@binary_round_exact false p b). lia.
  - apply (@binary_round_exact true p b). lia.
Qed.

Lemma geb_Z_of_Z (z b : Z) : - 2 ^ 53 < z < 2 ^ 53 -> geb_Z (of_Z z) b = (b <=? z).
Proof.
  intros Hz. unfold geb_Z. rewrite compare_Z_of_Z by assumption.
  destruct (Z.compare_spec z b), (Z.leb_spec b z); try reflexivity; lia.
Qed.

Lemma leb_Z_of_Z (z b : Z) : - 2 ^ 53 < z < 2 ^ 53 -> leb_Z (of_Z z) b = (z <=? b).
Proof.
  intros Hz. unfold leb_Z. rewrite compare_Z_of_Z by assumption.
  destruct (Z.compare_spec z b), (Z.leb_spec z b); try reflexivity; lia.
Qed.

(** *** Sums of integers below [2^53] are exact *)















End F64Facts.

(** ** Facts on the loader *)

Section Loader.

Lemma convert_to_won_returns (c : cell) :
  finite_cell c = true -> exists z, convert_to_won c = Ok z.
Proof.
  destruct c as [|z|[s|s| |s m e]]; try discriminate; intros _;
    eexists; reflexivity.
Qed.

Lemma convert_to_won_raises (c : cell) (e : exn) :
  convert_to_won c = Raise e -> finite_cell c = false /\ e = OverflowError.
Proof.
  destruct c as [|z|[s|s| |s m e']]; try discriminate.
  cbn. intros [= <-]. split; reflexivity.
Qed.

Lemma apply_returns {A : Type} (f : A -> cell) (items : list A) :
  forallb (fun it => finite_cell (f it)) items = true ->
  exists zs, apply convert_to_won (map f items) = Ok zs.
Proof.
  unfold apply. induction items as [|it items IH]; cbn [forallb map mapM].
  - intros _. eexists. reflexivity.
  - rewrite andb_true_iff. intros [Hit Hrest].
    destruct (@convert_to_won_returns (f it) Hit) as (z & ->).
    destruct (IH Hrest) as (zs & ->). eexists. reflexivity.
Qed.

Lemma forallb_weaken {A : Type} (p q : A -> bool) (l : list A) :
  (forall a, p a = true -> q a = true) -> forallb p l = true -> forallb q l = true.
Proof.
  intros Hpq. rewrite !forallb_forall. intros H a Ha. apply Hpq, H, Ha.
Qed.

(** Each of the four amount columns is finite when the records are. *)
Ltac finite_column H :=
  revert H; apply forallb_weaken; unfold finite_amounts; intros ?;
  rewrite !andb_true_iff; tauto.

(** The columns are added whenever no amount of the frame is infinite. *)
Lemma add_columns_returns (items : list item) :
  forallb finite_amounts items = true -> exists df, add_columns items = Ok df.
Proof.
  intros H. unfold add_columns.
  destruct (@apply_returns _ deposit items) as (dw & ->); [finite_column H|].
  destruct (@apply_returns _ monthlyRent items) as (mw & ->); [finite_column H|].
  destruct (@apply_returns _ premium items) as (pw & ->); [finite_column H|].
  destruct (@apply_returns _ maintenanceFee items) as (fw & ->); [finite_column H|].
  cbn [bind]. eexists. reflexivity.
Qed.

Lemma add_columns_cons (it : item) (items : list item) (df : list listing) :
  add_columns (it :: items) = Ok df ->
  exists r df', df = r :: df' /\ enriched it r /\ add_columns items = Ok df'.
Proof.
  unfold add_columns, apply. cbn [map mapM].
  destruct (convert_to_won (deposit it)) as [d|?] eqn:Ed; cbn [bind]; [|discriminate].
  destruct (mapM convert_to_won (map deposit items)) as [dw|?]; cbn [bind]; [|discriminate].
  destruct (convert_to_won (monthlyRent it)) as [m|?] eqn:Em; cbn [bind]; [|discriminate].
  destruct (mapM convert_to_won (map monthlyRent items)) as [mw|?]; cbn [bind]; [|discriminate].
  destruct (convert_to_won (premium it)) as [p|?] eqn:Ep; cbn [bind]; [|discriminate].
  destruct (mapM convert_to_won (map premium items)) as [pw|?]; cbn [bind]; [|discriminate].
  destruct (convert_to_won (maintenanceFee it)) as [f|?] eqn:Ef; cbn [bind]; [|discriminate].
  destruct (mapM convert_to_won (map maintenanceFee items)) as [fw|?]; cbn [bind]; [|discriminate].
  unfold add_int, mul_int, replace_0, truediv, mul_float.
  cbn [map zip_with frame]. intros [= <-].
  do 2 eexists. split; [reflexivity|]. split; [|reflexivity].
  constructor;
    cbn [raw deposit_won monthlyRent_won premium_won maintenanceFee_won total_investment
         roi payback_period premium_per_size];
    solve [assumption | reflexivity].
Qed.

Lemma add_columns_nil (df : list listing) : add_columns [] = Ok df -> df = [].
Proof. cbn. intros [= <-]. reflexivity. Qed.

(** The new columns are computed row by row, in the order of the frame. *)
Lemma add_columns_Forall2 (items : list item) :
  forall df, add_columns items = Ok df -> Forall2 enriched items df.
Proof.
  induction items as [|it items IH]; intros df H.
  - rewrite (@add_columns_nil df H). constructor.
  - destruct (@add_columns_cons it items df H) as (r & df' & -> & He & H').
    constructor; [assumption|]. apply IH. assumption.
Qed.

Lemma load_data_frame (items : list item) (df : list listing) :
  load_data items = Ok df -> items <> [] /\ add_columns (DataFrame items) = Ok df.
Proof.
  destruct items as [|it items]; [discriminate|].
  intros H. split; [discriminate|exact H].
Qed.

Lemma load_data_Forall2 (items : list item) (df : list listing) :
  load_data items = Ok df -> Forall2 enriched (DataFrame items) df.
Proof.
  intros H. apply add_columns_Forall2. apply (@load_data_frame items df H).
Qed.

Lemma Forall2_In_right {A B : Type} (P : A -> B -> Prop) (l : list A) (l' : list B) :
  Forall2 P l l' -> forall b, In b l' -> exists a, In a l /\ P a b.
Proof.
  induction 1 as [|a b0 l l' Hab _ IH]; intros b Hin; [destruct Hin|].
  destruct Hin as [<-|Hin].
  - exists a. split; [left; reflexivity|assumption].
  - destruct (IH b Hin) as (a' & Ha' & HP).
    exists a'. split; [right; assumption|assumption].
Qed.

Lemma load_data_rows (items : list item) (df : list listing) (r : listing) :
  load_data items = Ok df -> In r df -> exists it, In it (DataFrame items) /\ enriched it r.
Proof.
  intros H Hin.
  apply (Forall2_In_right (@load_data_Forall2 items df H) r Hin).
Qed.

End Loader.

(** ** int64 arithmetic *)

Section Wrap.


Lemma wrap64_id (z : Z) : fits_int64 z -> wrap64 z = z.
Proof.
  unfold wrap64, fits_int64. intros Hz. rewrite Z.mod_small by lia. lia.
Qed.



End Wrap.

(** ** The ratio columns *)

Section Ratios.
Import F64 F64Facts.

Lemma of_Z_100_finite : is_finite (of_Z 100).
Proof. do 3 eexists. reflexivity. Qed.

Lemma replace_0_nan_nonzero (z : Z) : z <> 0 -> replace_0_nan z = of_Z z.
Proof.
  intros H. unfold replace_0_nan. destruct (Z.eqb_spec z 0); [contradiction|reflexivity].
Qed.

(** A quotient whose divisor went through [replace(0, nan)] is NaN
    exactly when the divisor column held 0. *)
Lemma ratio_nan_iff (a b : Z) :
  fits_int64 a -> fits_int64 b ->
  (isnan (div (of_Z a) (replace_0_nan b)) = true <-> b = 0).
Proof.
  intros Ha Hb. split.
  - intros Hn. destruct (Z.eq_dec b 0) as [|Hnz]; [assumption|exfalso].
    rewrite replace_0_nan_nonzero in Hn by assumption.
    rewrite div_not_nan in Hn; [discriminate| |].
    + apply of_Z_not_nan; assumption.
    + apply of_Z_finite; assumption.
  - intros ->. cbn [replace_0_nan Z.eqb]. rewrite div_nan_r. reflexivity.
Qed.

Lemma percent_nan_iff (x : float) : isnan (mul x (of_Z 100)) = isnan x.
Proof.
  destruct (isnan x) eqn:E.
  - apply isnan_true in E. subst x. reflexivity.
  - apply mul_not_nan; [assumption|apply of_Z_100_finite].
Qed.


Lemma convert_to_won_multiple (c : cell) (z : Z) :
  convert_to_won c = Ok z -> z mod 10000 = 0.
Proof.
  unfold convert_to_won. destruct (isna c || is_None c).
  - intros [= <-]. reflexivity.
  - destruct (py_int c) as [v|e]; cbn [bind]; [|discriminate].
    intros [= <-]. apply Z.mod_mul. lia.
Qed.

End Ratios.

(** Every row of a frame given by its rows satisfies a closed property. *)
Ltac each_row Hr :=
  vm_compute in Hr;
  repeat (destruct Hr as [Hr|Hr]; [subst|]); try contradiction.

Lemma sample_loaded : load_data sample_items = Ok sample_df.
Proof. vm_compute. reflexivity. Qed.

Lemma sample_int64 : int64_frame sample_df.
Proof.
  unfold int64_frame. apply Forall_forall. intros r Hr. each_row Hr;
    unfold fits_int64; vm_compute; repeat split; congruence.
Qed.







(** The end-to-end example of the specification: deposit 1000, rent 50,
    premium 2000 on 30 square metres. *)
Example end_to_end :
  deposit_won (row 0) = 10000000
  /\ monthlyRent_won (row 0) = 500000
  /\ premium_won (row 0) = 20000000
  /\ total_investment (row 0) = 30000000
  /\ roi (row 0) = F64.of_Z 20
  /\ payback_period (row 0) = F64.of_Z 5
  /\ format_f false 0 (premium_per_size (row 0)) = "666667"%string.
Proof. vm_compute. repeat split. Qed.




(** ** Currency conversion *)

Section Conversion.
Import F64.

Lemma trunc_floor_nonneg (x : float) (t : Z) :
  trunc x = Some t -> leb zero x = true -> floor x = Some t.
Proof.
  destruct x as [s|s| |s m e]; try discriminate.
  - intros H _. exact H.
  - destruct s; [discriminate|].
    intros H _. destruct e; exact H.
Qed.

Lemma ceil_floor_gap (m d : Z) : 0 < d -> m / d <= (m + d - 1) / d <= m / d + 1.
Proof.
  intros Hd. split.
  - apply Z.div_le_mono; lia.
  - rewrite <- Z.div_add by lia. apply Z.div_le_mono; lia.
Qed.

Lemma trunc_floor_gap (x : float) (t f : Z) :
  trunc x = Some t -> floor x = Some f -> f <= t <= f + 1.
Proof.
  destruct x as [s|s| |s m e]; try discriminate.
  - intros [= <-] [= <-]. lia.
  - destruct e as [|p|p]; unfold trunc, floor.
    + intros [= <-] [= <-]. lia.
    + intros [= <-] [= <-]. lia.
    + assert (Hd : 0 < 2 ^ Z.pos p) by (apply Z.pow_pos_nonneg; lia).
      pose proof (@ceil_floor_gap (Z.pos m) (2 ^ Z.pos p) Hd).
      destruct s; intros Ht Hf.
      * assert (t = - (Z.pos m / 2 ^ Z.pos p)) by congruence.
        assert (f = - ((Z.pos m + 2 ^ Z.pos p - 1) / 2 ^ Z.pos p)) by congruence.
        lia.
      * assert (t = Z.pos m / 2 ^ Z.pos p) by congruence.
        assert (f = Z.pos m / 2 ^ Z.pos p) by congruence.
        lia.
Qed.

End Conversion.

(** C3, with truncation toward zero where the specification says floor:
    [convert_to_won] gives 0 for a null amount, [v * 10000] for an integer
    [v], and for a finite double its truncation toward zero times 10,000,
    which is an integer; the truncation is the floor for every non-negative
    amount and exceeds it by at most one otherwise. *)
Theorem convert_to_won_trunc (val : cell) :
  (isna val = true -> convert_to_won val = Ok 0)
  /\ (forall v, val = PyInt v -> convert_to_won val = Ok (v * 10000))
  /\ (forall x t, val = PyFloat x -> F64.trunc x = Some t ->
        convert_to_won val = Ok (t * 10000)
        /\ (F64.leb zero x = true -> F64.floor x = Some t)
        /\ (forall f, F64.floor x = Some f -> f <= t <= f + 1)).
Proof.
  split; [|split].
  - intros Hn. unfold convert_to_won. rewrite Hn. reflexivity.
  - intros v ->. reflexivity.
  - intros x t -> Ht. split; [|split].
    + unfold convert_to_won, isna, is_None, py_int. rewrite Ht.
      destruct x; try discriminate; reflexivity.
    + intros Hx. apply trunc_floor_nonneg; assumption.
    + intros f Hf. apply (@trunc_floor_gap x); assumption.
Qed.

Lemma convert_to_won_trunc_witness :
  convert_to_won (PyFloat F64.nan) = Ok 0
  /\ convert_to_won (PyInt 45000) = Ok 450000000
  /\ convert_to_won (PyFloat (F64.of_Z 45000)) = Ok 450000000
  /\ F64.floor (F64.of_Z 45000) = Some 45000.
Proof.
  destruct (convert_to_won_trunc (PyFloat F64.nan)) as (Hnan & _).
  destruct (convert_to_won_trunc (PyInt 45000)) as (_ & Hint & _).
  destruct (convert_to_won_trunc (PyFloat (F64.of_Z 45000))) as (_ & _ & Hfl).
  destruct (Hfl (F64.of_Z 45000) 45000 eq_refl eq_refl) as (Hc & Hfloor & _).
  split; [exact (Hnan eq_refl)|].
  split; [exact (Hint 45000 eq_refl)|].
  split; [exact Hc|exact (Hfloor eq_refl)].
Defined.

(** C3 with the floor fails on a negative amount with a fraction: for
    [-1.5] the floor gives -20000 where [convert_to_won] returns -10000. *)
Lemma convert_to_won_floor_counterexample :
  normalize_spec (PyFloat neg_1_5) = Some (-20000)
  /\ convert_to_won (PyFloat neg_1_5) = Ok (-10000)
  /\ convert_to_won (PyFloat neg_1_5) <> Ok (-20000).
Proof.
  split; [|split]; [vm_compute; reflexivity | vm_compute; reflexivity |].
  vm_compute. discriminate.
Qed.

Example neg_1_5_value : F64.div (F64.of_Z (-3)) (F64.of_Z 2) = neg_1_5.
Proof. vm_compute. reflexivity. Qed.

(** An infinite amount, which [json.load] accepts as [Infinity], makes
    [int(val)] raise. *)
Example convert_to_won_infinity :
  convert_to_won (PyFloat (S754_infinity false)) = Raise OverflowError.
Proof. reflexivity. Qed.

(** ** The filter *)

Section Filter.

Lemma mask_and_map {A : Type} (f g : A -> bool) (l : list A) :
  map f l &&& map g l = map (fun x => f x && g x) l.
Proof.
  unfold mask_and. induction l as [|a l IH]; cbn [map zip_with]; [reflexivity|].
  rewrite IH. reflexivity.
Qed.

Lemma boolean_index_map {A : Type} (f : A -> bool) (l : list A) :
  boolean_index l (map f l) = filter f l.
Proof.
  induction l as [|a l IH]; cbn [map boolean_index filter]; [reflexivity|].
  rewrite IH. reflexivity.
Qed.

Lemma isin_column (f : listing -> string) (df : list listing) (values : list string) :
  isin (column f df) values = map (fun r => in_set (f r) values) df.
Proof. unfold isin, column. apply map_map. Qed.

Lemma between_column (f : listing -> cell) (df : list listing) (range : Z * Z) :
  between (column f df) (fst range) (snd range) = map (fun r => in_range (f r) range) df.
Proof.
  unfold between, column. rewrite !map_map, mask_and_map. reflexivity.
Qed.

Lemma between_float_column (f : listing -> F64.float) (df : list listing)
    (range : F64.float * F64.float) :
  between_float (column f df) (fst range) (snd range)
  = map (fun r => in_range_float (f r) range) df.
Proof.
  unfold between_float, column. rewrite !map_map, mask_and_map. reflexivity.
Qed.

(** The mask built column by column selects the rows that [satisfies]
    accepts. *)
Lemma filtered_df_filter (df : list listing) (sb : sidebar) :
  filtered_df df sb = filter (satisfies sb) df.
Proof.
  unfold filtered_df.
  rewrite !isin_column, !between_column, between_float_column, !mask_and_map.
  apply boolean_index_map.
Qed.

Lemma in_set_In (x : string) (values : list string) :
  in_set x values = true <-> In x values.
Proof.
  unfold in_set. rewrite existsb_exists. split.
  - intros (y & Hy & E). apply String.eqb_eq in E. subst. assumption.
  - intros H. exists x. split; [assumption|apply String.eqb_refl].
Qed.

Lemma in_range_int (z : Z) (range : Z * Z) :
  in_range (PyInt z) range = true <-> fst range <= z <= snd range.
Proof.
  unfold in_range, cell_ge, cell_le. rewrite andb_true_iff, !Z.leb_le. reflexivity.
Qed.

Lemma in_range_null (c : cell) (range : Z * Z) : isna c = true -> in_range c range = false.
Proof.
  destruct c as [| |x]; cbn [isna]; intros H; try discriminate; [reflexivity|].
  apply F64Facts.isnan_true in H. subst x. reflexivity.
Qed.

Lemma in_range_float_nan (range : F64.float * F64.float) :
  in_range_float F64.nan range = false.
Proof.
  unfold in_range_float. rewrite F64Facts.leb_nan_r. reflexivity.
Qed.

Lemma in_range_wider (c : cell) (r1 r2 : Z * Z) :
  fst r2 <= fst r1 -> snd r1 <= snd r2 ->
  in_range c r1 = true -> in_range c r2 = true.
Proof.
  intros Hlo Hhi. unfold in_range. rewrite !andb_true_iff. intros [Hge Hle].
  destruct c as [|z|x]; cbn [cell_ge cell_le] in *; try discriminate.
  - rewrite Z.leb_le in *. lia.
  - split.
    + apply (@F64Facts.geb_Z_mono x (fst r1)); assumption.
    + apply (@F64Facts.leb_Z_mono x (snd r1)); assumption.
Qed.

Lemma in_range_float_wider (x : F64.float) (r1 r2 : F64.float * F64.float) :
  F64.leb (fst r2) (fst r1) = true -> F64.leb (snd r1) (snd r2) = true ->
  in_range_float x r1 = true -> in_range_float x r2 = true.
Proof.
  intros Hlo Hhi. unfold in_range_float. rewrite !andb_true_iff. intros [Hge Hle].
  split.
  - apply (@F64Facts.leb_trans (fst r2) (fst r1) x); assumption.
  - apply (@F64Facts.leb_trans x (snd r1) (snd r2)); assumption.
Qed.

End Filter.

(** C4: the filter returns the listings that satisfy the five predicates
    together, in frame order: its result is [filter (satisfies sb)], a
    listing is in it exactly when it is in the frame and passes membership
    of business type and floor and the three closed ranges on the raw
    columns, both bounds included (an integer cell and the same amount in a
    float64 column alike); an empty frame gives an empty result. *)
Theorem filtered_df_exact (df : list listing) (sb : sidebar) :
  filtered_df df sb = filter (satisfies sb) df
  /\ (forall r, In r (filtered_df df sb) <->
        In r df
        /\ In (businessLargeCodeName (raw r)) (selected_business sb)
        /\ In (floor (raw r)) (selected_floors sb)
        /\ in_range (monthlyRent (raw r)) (rent_range sb) = true
        /\ in_range (deposit (raw r)) (deposit_range sb) = true
        /\ in_range_float (size (raw r)) (size_range sb) = true)
  /\ (forall z lo hi, in_range (PyInt z) (lo, hi) = true <-> lo <= z <= hi)
  /\ (forall z lo hi, - 2 ^ 53 < z < 2 ^ 53 ->
        (in_range (PyFloat (F64.of_Z z)) (lo, hi) = true <-> lo <= z <= hi))
  /\ (forall lo hi, in_range_float lo (lo, hi) = F64.leb lo hi
                    /\ in_range_float hi (lo, hi) = F64.leb lo hi)
  /\ filtered_df [] sb = [].
Proof.
  split; [apply filtered_df_filter|]. split; [|split; [|split; [|split]]].
  - intros r. rewrite filtered_df_filter, filter_In. unfold satisfies.
    rewrite !andb_true_iff, !in_set_In. tauto.
  - intros z lo hi. apply in_range_int.
  - intros z lo hi Hz. unfold in_range, cell_ge, cell_le. cbn [fst snd].
    rewrite F64Facts.geb_Z_of_Z, F64Facts.leb_Z_of_Z by assumption.
    rewrite andb_true_iff, !Z.leb_le. reflexivity.
  - intros lo hi. unfold in_range_float. cbn [fst snd]. apply F64Facts.leb_bound_incl.
  - reflexivity.
Qed.

Lemma filtered_df_exact_witness :
  filtered_df sample_df sb_all = [row 0; row 1]
  /\ in_range (PyFloat (F64.of_Z 50)) (0, 50) = true.
Proof.
  destruct (filtered_df_exact sample_df sb_all) as (Hf & _ & _ & Hfloat & _).
  split.
  - rewrite Hf. vm_compute. reflexivity.
  - apply (Hfloat 50 0 50); lia.
Defined.

(** C5: widening the sidebar criteria never removes a listing. *)
Theorem filtered_df_monotone (df : list listing) (c1 c2 : sidebar) :
  wider c1 c2 ->
  forall r, In r (filtered_df df c1) -> In r (filtered_df df c2).
Proof.
  intros (Hb & Hf & Hr1 & Hr2 & Hd1 & Hd2 & Hs1 & Hs2) r.
  rewrite !filtered_df_filter, !filter_In. unfold satisfies.
  rewrite !andb_true_iff, !in_set_In.
  intros (Hin & (((Hbus & Hfl) & Hrent) & Hdep) & Hsize).
  repeat split.
  - assumption.
  - apply Hb. assumption.
  - apply Hf. assumption.
  - apply (@in_range_wider _ (rent_range c1)); assumption.
  - apply (@in_range_wider _ (deposit_range c1)); assumption.
  - apply (@in_range_float_wider _ (size_range c1)); assumption.
Qed.

(** C10: a row produced by [load_data] whose raw rent, deposit or size is
    null is in no filter result, whatever the ranges; yet a null rent or
    deposit is converted to 0 won. *)
Theorem null_excluded (items : list item) (df : list listing) (sb : sidebar) (r : listing) :
  load_data items = Ok df -> In r df ->
  (isna (monthlyRent (raw r)) = true ->
     monthlyRent_won r = 0 /\ ~ In r (filtered_df df sb))
  /\ (isna (deposit (raw r)) = true ->
     deposit_won r = 0 /\ ~ In r (filtered_df df sb))
  /\ (F64.isnan (size (raw r)) = true -> ~ In r (filtered_df df sb)).
Proof.
  intros H Hin. destruct (@load_data_rows items df r H Hin) as (it & _ & He).
  assert (Hsat : forall b, satisfies sb r = b -> b = false -> ~ In r (filtered_df df sb)).
  { intros b Hs -> Hr. rewrite filtered_df_filter, filter_In in Hr.
    destruct Hr as [_ Hr]. congruence. }
  split; [|split].
  - intros Hn. split.
    + pose proof (enriched_rent He) as Hc. rewrite <- (enriched_raw He) in Hc.
      unfold convert_to_won in Hc. rewrite Hn in Hc. cbn in Hc. congruence.
    + apply (Hsat _ eq_refl). unfold satisfies.
      rewrite (@in_range_null _ (rent_range sb) Hn). rewrite !andb_false_r. reflexivity.
  - intros Hn. split.
    + pose proof (enriched_deposit He) as Hc. rewrite <- (enriched_raw He) in Hc.
      unfold convert_to_won in Hc. rewrite Hn in Hc. cbn in Hc. congruence.
    + apply (Hsat _ eq_refl). unfold satisfies.
      rewrite (@in_range_null _ (deposit_range sb) Hn). rewrite !andb_false_r. reflexivity.
  - intros Hn. apply F64Facts.isnan_true in Hn.
    apply (Hsat _ eq_refl). unfold satisfies.
    rewrite Hn, in_range_float_nan. rewrite !andb_false_r. reflexivity.
Qed.


Lemma wider_sample : wider sb_narrow sb_all.
Proof.
  unfold wider. cbn [sb_narrow sb_all selected_business selected_floors rent_range
                     deposit_range size_range fst snd].
  repeat split; try lia; try (vm_compute; reflexivity).
  - intros x [<-|[]]. left. reflexivity.
  - intros x [<-|[]]. left. reflexivity.
Qed.

Example filtered_sample :
  filtered_df sample_df sb_all = [row 0; row 1]
  /\ filtered_df sample_df sb_narrow = [row 0]
  /\ filtered_df sample_df sb_zero_rent = [row 1].
Proof. vm_compute. repeat split. Qed.

Lemma filtered_df_monotone_witness : In (row 0) (filtered_df sample_df sb_all).
Proof.
  apply (@filtered_df_monotone sample_df sb_narrow sb_all wider_sample (row 0)).
  vm_compute. left. reflexivity.
Defined.

Lemma null_excluded_witness :
  isna (monthlyRent (raw (row 2))) = true
  /\ fst (rent_range sb_all) = 0
  /\ monthlyRent_won (row 2) = 0
  /\ ~ In (row 2) (filtered_df sample_df sb_all).
Proof.
  split; [reflexivity|]. split; [reflexivity|].
  apply (proj1 (@null_excluded sample_items sample_df sb_all (row 2) sample_loaded
                  (or_intror (or_intror (or_introl eq_refl))))).
  reflexivity.
Defined.

(** ** The means *)

Section Means.
Import F64.






Lemma Zsum_bound (zs : list Z) : Z.abs (Zsum zs) <= sum_abs zs.
Proof.
  induction zs as [|z zs IH]; cbn [Zsum sum_abs fold_right]; [lia|].
  fold (Zsum zs) (sum_abs zs). lia.
Qed.







End Means.



(** ** Formatting *)

Section Formatting.
Import F64 F64Facts.
Local Open Scope string_scope.

Lemma digits_head (n : Z) :
  exists c rest, digits n = String c rest /\ is_digit c = true.
Proof.
  unfold digits, NilZero.string_of_uint.
  destruct (N.to_uint (Z.to_N n)); cbn [NilEmpty.string_of_uint];
    do 2 eexists; split; reflexivity.
Qed.

Lemma commas_head (c : ascii) (rest : string) :
  exists rest', commas (String c rest) = String c rest'.
Proof. cbn [commas]. eexists. reflexivity. Qed.

Lemma is_digit_not_n (c : ascii) : is_digit c = true -> c <> "n"%char.
Proof. intros H ->. discriminate. Qed.

Lemma starts_numeric_app (s t : string) : starts_numeric s -> starts_numeric (s ++ t).
Proof.
  intros (c & rest & -> & Hc). exists c, (rest ++ t). split; [reflexivity|assumption].
Qed.

Lemma format_f_numeric (grouping : bool) (ndigits : nat) (x : float) :
  isnan x = false -> starts_numeric (format_f grouping ndigits x).
Proof.
  intros Hx.
  assert (Hbody : forall (s : bool) (n : Z) (tail : string),
            starts_numeric (sign_str s
                            ++ (if grouping then commas (digits n) else digits n) ++ tail)).
  { intros s n tail. destruct s.
    - eexists; eexists. split; [reflexivity|discriminate].
    - cbn [sign_str append].
      destruct (digits_head n) as (c & rest & -> & Hc).
      apply starts_numeric_app. destruct grouping.
      + destruct (commas_head c rest) as (rest' & ->).
        exists c, rest'. split; [reflexivity|apply is_digit_not_n; assumption].
      + exists c, rest. split; [reflexivity|apply is_digit_not_n; assumption]. }
  destruct x as [s|s| |s m e]; try discriminate.
  - apply Hbody.
  - destruct s; eexists; eexists; (split; [reflexivity|discriminate]).
  - apply Hbody.
Qed.

Lemma of_Z_finite_1e8 : is_finite (of_Z 100000000).
Proof. do 3 eexists. vm_compute. reflexivity. Qed.

Lemma of_Z_finite_1e4 : is_finite (of_Z 10000).
Proof. do 3 eexists. vm_compute. reflexivity. Qed.

Lemma format_won_numeric (val : float) :
  isnan val = false -> starts_numeric (format_won val).
Proof.
  intros Hv. unfold format_won.
  destruct (geb_Z val 100000000); apply starts_numeric_app, format_f_numeric, div_not_nan;
    auto using of_Z_finite_1e8, of_Z_finite_1e4.
Qed.

Lemma format_won_nan_value : format_won nan = "nan만".
Proof. reflexivity. Qed.

End Formatting.

(** Renderings checked against CPython: ties go to the even digit, the
    sign of a negative zero is kept, infinities are spelled out. *)
Example format_f_samples :
  format_f false 1 (F64.div (F64.of_Z 1) (F64.of_Z 4)) = "0.2"%string
  /\ format_f false 1 (F64.div (F64.of_Z 35) (F64.of_Z 100)) = "0.3"%string
  /\ format_f false 1 (F64.div (F64.of_Z 3) (F64.of_Z 4)) = "0.8"%string
  /\ format_f true 0 (F64.div (F64.of_Z 2469135) (F64.of_Z 2)) = "1,234,568"%string
  /\ format_f true 0 (F64.div (F64.of_Z (-4)) (F64.of_Z 10)) = "-0"%string
  /\ format_f true 0 (F64.of_Z 1000) = "1,000"%string
  /\ format_f true 0 (F64.of_Z 999) = "999"%string
  /\ format_f false 1 (F64.div (F64.of_Z (-1)) zero) = "-inf"%string
  /\ format_f true 0 (F64.div zero zero) = "nan"%string.
Proof. vm_compute. repeat split. Qed.

(** C7: [format_won] renders NaN as ["nan만"]; no value that is not NaN is
    rendered that way, and the rendering holds no digit, so it is not ["0만"]
    nor any other number. *)
Theorem format_won_undefined :
  format_won F64.nan = "nan만"%string
  /\ (forall v, F64.isnan v = false -> format_won v <> format_won F64.nan)
  /\ has_digit (format_won F64.nan) = false
  /\ format_won F64.nan <> format_won zero.
Proof.
  split; [reflexivity|]. split; [|split].
  - intros v Hv E. destruct (@format_won_numeric v Hv) as (c & rest & Ev & Hc).
    rewrite Ev, format_won_nan_value in E. injection E as -> _. apply Hc. reflexivity.
  - reflexivity.
  - vm_compute. discriminate.
Qed.

Lemma format_won_undefined_witness :
  format_won (F64.of_Z 0) = "0만"%string
  /\ format_won (F64.of_Z 0) <> format_won F64.nan.
Proof.
  split; [reflexivity|].
  apply (proj1 (proj2 format_won_undefined)). reflexivity.
Defined.

(** C8: [format_won] renders a value of at least 100,000,000 as its
    quotient by 100,000,000 with one decimal followed by "억" and any other
    value as its quotient by 10,000 with no decimal and thousands separators
    followed by "만", the threshold being the one on the integer amount;
    150,000,000 gives "1.5억" and 5,000,000 gives "500만", the threshold
    itself "1.0억" and the amount just below it "10,000만"; equal inputs give
    equal strings. *)
Theorem format_won_units (val : F64.float) :
  format_won val
  = (if F64.geb_Z val 100000000
     then format_f false 1 (F64.div val (F64.of_Z 100000000)) ++ "억"
     else format_f true 0 (F64.div val (F64.of_Z 10000)) ++ "만")%string
  /\ (forall v, - 2 ^ 53 < v < 2 ^ 53 ->
        (100000000 <= v ->
           format_won (F64.of_Z v)
           = (format_f false 1 (F64.div (F64.of_Z v) (F64.of_Z 100000000)) ++ "억")%string)
        /\ (v < 100000000 ->
           format_won (F64.of_Z v)
           = (format_f true 0 (F64.div (F64.of_Z v) (F64.of_Z 10000)) ++ "만")%string))
  /\ format_won (F64.of_Z 150000000) = "1.5억"%string
  /\ format_won (F64.of_Z 5000000) = "500만"%string
  /\ format_won (F64.of_Z 100000000) = "1.0억"%string
  /\ format_won (F64.of_Z 99999999) = "10,000만"%string
  /\ (forall w, w = val -> format_won w = format_won val).
Proof.
  split; [reflexivity|]. split; [|split; [|split; [|split; [|split]]]].
  - intros v Hv. unfold format_won. rewrite F64Facts.geb_Z_of_Z by assumption.
    split; intros Hc.
    + apply Z.leb_le in Hc. rewrite Hc. reflexivity.
    + apply Z.leb_gt in Hc. rewrite Hc. reflexivity.
  - vm_compute. reflexivity.
  - vm_compute. reflexivity.
  - vm_compute. reflexivity.
  - vm_compute. reflexivity.
  - intros w ->. reflexivity.
Qed.

Lemma format_won_units_witness :
  format_won (F64.of_Z 1234567890) = "12.3억"%string
  /\ format_won (F64.of_Z 12345678) = "1,235만"%string.
Proof.
  destruct (format_won_units zero) as (_ & Hint & _).
  destruct (Hint 1234567890 ltac:(lia)) as (Hbig & _).
  destruct (Hint 12345678 ltac:(lia)) as (_ & Hsmall).
  split.
  - rewrite Hbig by lia. vm_compute. reflexivity.
  - rewrite Hsmall by lia. vm_compute. reflexivity.
Defined.

(** ** More facts on binary64 values *)

Module F64More.
Import F64 F64Facts.

Lemma leb_total_float (x y : float) :
  isnan x = false -> isnan y = false -> leb x y = true \/ leb y x = true.
Proof.
  destruct x as [sx|sx| |sx mx ex], y as [sy|sy| |sy my ey]; try discriminate; intros _ _;
    try (rewrite !leb_finite; destruct sx, sy; lia);
    try (destruct sx); try (destruct sy); auto.
Qed.

Lemma isnan_false_intro (x : float) : x <> nan -> isnan x = false.
Proof. destruct x; intros H; try reflexivity. exfalso. apply H. reflexivity. Qed.

Lemma binary_normalize_not_nan (m e : Z) (szero : bool) :
  isnan (binary_normalize prec emax m e szero) = false.
Proof.
  apply isnan_false_intro. unfold binary_normalize, binary_round.
  destruct m as [|p|p]; [discriminate| |].
  - destruct (shl_align p e _) as [mz ez]. apply binary_round_aux_not_nan. lia.
  - destruct (shl_align p e _) as [mz ez]. apply binary_round_aux_not_nan. lia.
Qed.

Lemma add_not_nan (x y : float) :
  isnan x = false -> is_real y = true -> isnan (add x y) = false.
Proof.
  destruct x as [sx|sx| |sx mx ex], y as [sy|sy| |sy my ey]; try discriminate; intros _ _;
    try reflexivity.
  - destruct sx, sy; reflexivity.
  - unfold add, SFadd. apply binary_normalize_not_nan.
Qed.

Lemma of_Z_real (z : Z) : fits_int64 z -> is_real (of_Z z) = true.
Proof.
  intros Hz. destruct (Z.eq_dec z 0) as [->|Hnz]; [reflexivity|].
  destruct (of_Z_finite Hz Hnz) as (sg & m & e & ->). reflexivity.
Qed.

Lemma is_real_not_nan (x : float) : is_real x = true -> isnan x = false.
Proof. destruct x; try discriminate; reflexivity. Qed.

Lemma of_Z_is_zero (z : Z) : fits_int64 z -> is_zero (of_Z z) = (z =? 0).
Proof.
  intros Hz. destruct (Z.eqb_spec z 0) as [->|Hnz]; [reflexivity|].
  destruct (of_Z_finite Hz Hnz) as (sg & m & e & ->). reflexivity.
Qed.

(** An integer below [2^53] survives the trip through a double. *)
Lemma binary_round_trunc (sx : bool) (mx : positive) :
  Z.pos mx < 2 ^ 53 ->
  trunc (binary_round prec emax sx mx 0) = Some (if sx then Z.neg mx else Z.pos mx).
Proof.
  intros Hmx. unfold binary_round.
  assert (Hd : Z.pos (digits2_pos mx) <= 53) by (apply digits2_pos_upper; lia).
  rewrite fexp_small by lia. unfold shl_align. rewrite Z.sub_0_r.
  destruct (Z.pos (digits2_pos mx) + 0 - 53) as [|k|k] eqn:Ek; try lia.
  - rewrite binary_round_aux_canonical by lia.
    unfold trunc. rewrite Z.pow_0_r, Z.mul_1_r. destruct sx; reflexivity.
  - rewrite binary_round_aux_canonical; [| rewrite digits2_pos_iter_xO; lia | lia].
    unfold trunc. rewrite iter_xO_shift.
    assert (Hp : 0 < 2 ^ Z.pos k) by (apply Z.pow_pos_nonneg; lia).
    rewrite Z.div_mul by lia. destruct sx; reflexivity.
Qed.

Lemma trunc_of_Z (z : Z) : - 2 ^ 53 < z < 2 ^ 53 -> trunc (of_Z z) = Some z.
Proof.
  intros Hz. destruct z as [|p|p].
  - reflexivity.
  - apply (@binary_round_trunc false p). lia.
  - apply (@binary_round_trunc true p). lia.
Qed.

(** The four outcomes of dividing a zero or finite double. *)
Lemma div_real_cases (x y : float) :
  is_real x = true ->
  (isnan (div x y) = true <-> isnan y = true \/ (is_zero x = true /\ is_zero y = true))
  /\ (is_zero x = false -> is_zero y = true -> is_inf (div x y) = true)
  /\ (is_inf y = true -> is_zero (div x y) = true).
Proof.
  intros Hx.
  destruct x as [sx|sx| |sx mx ex]; try discriminate;
    destruct y as [sy|sy| |sy my ey]; cbn [div SFdiv isnan is_zero is_inf];
    try (split; [split; [intros H; try discriminate; auto
                        | intros [H|[H1 H2]]; try discriminate; auto]
                |split; intros; try discriminate; reflexivity]).
  pose proof (@div_not_nan (S754_finite sx mx ex) (S754_finite sy my ey) eq_refl
                (ex_intro _ sy (ex_intro _ my (ex_intro _ ey eq_refl)))) as Hn.
  unfold div, SFdiv in Hn. congruence.
Qed.

End F64More.

(** ** The loader: outcome, order and units *)

Section LoaderMore.

Lemma convert_to_won_Ok_finite (c : cell) (z : Z) :
  convert_to_won c = Ok z -> finite_cell c = true.
Proof. destruct c as [|v|[sg|sg| |sg m e]]; try reflexivity. discriminate. Qed.

Lemma apply_raises {A : Type} (f : A -> cell) (items : list A) (e : exn) :
  apply convert_to_won (map f items) = Raise e -> e = OverflowError.
Proof.
  unfold apply. induction items as [|it items IH]; cbn [map mapM]; [discriminate|].
  destruct (convert_to_won (f it)) as [z|e'] eqn:Ec; cbn [bind].
  - destruct (mapM convert_to_won (map f items)) as [zs|e'']; cbn [bind]; [discriminate|].
    intros [= <-]. apply IH. reflexivity.
  - intros [= <-]. apply (@convert_to_won_raises (f it) e' Ec).
Qed.

Lemma add_columns_raises (items : list item) (e : exn) :
  add_columns items = Raise e -> e = OverflowError.
Proof.
  unfold add_columns.
  destruct (apply convert_to_won (map deposit items)) as [dw|e1] eqn:E1; cbn [bind];
    [|intros [= <-]; apply (@apply_raises _ deposit items e1 E1)].
  destruct (apply convert_to_won (map monthlyRent items)) as [mw|e2] eqn:E2; cbn [bind];
    [|intros [= <-]; apply (@apply_raises _ monthlyRent items e2 E2)].
  destruct (apply convert_to_won (map premium items)) as [pw|e3] eqn:E3; cbn [bind];
    [|intros [= <-]; apply (@apply_raises _ premium items e3 E3)].
  destruct (apply convert_to_won (map maintenanceFee items)) as [fw|e4] eqn:E4; cbn [bind];
    [|intros [= <-]; apply (@apply_raises _ maintenanceFee items e4 E4)].
  discriminate.
Qed.

Lemma enriched_finite (it : item) (r : listing) : enriched it r -> finite_amounts it = true.
Proof.
  intros He. unfold finite_amounts.
  rewrite (@convert_to_won_Ok_finite _ _ (enriched_deposit He)),
          (@convert_to_won_Ok_finite _ _ (enriched_rent He)),
          (@convert_to_won_Ok_finite _ _ (enriched_premium He)),
          (@convert_to_won_Ok_finite _ _ (enriched_maint He)).
  reflexivity.
Qed.

(** *** Line 39 cell by cell *)

Lemma coerce_Forall2 (s : Series cell) : Forall2 coerced s (coerce s).
Proof.
  unfold coerce. destruct (forallb is_int s || forallb is_None s).
  - induction s as [|c s IH]; constructor; [left; reflexivity|exact IH].
  - induction s as [|c s IH]; cbn [map]; constructor; [right; reflexivity|exact IH].
Qed.

Lemma zip_amounts_Forall2 (items : list item) : forall d m p f,
  Forall2 coerced (map deposit items) d ->
  Forall2 coerced (map monthlyRent items) m ->
  Forall2 coerced (map premium items) p ->
  Forall2 coerced (map maintenanceFee items) f ->
  Forall2 same_record items (zip_amounts items d m p f).
Proof.
  induction items as [|it items IH]; intros d m p f Hd Hm Hp Hf; cbn [map] in *.
  - constructor.
  - inversion Hd as [|? c1 ? d' H1 Hd']; subst.
    inversion Hm as [|? c2 ? m' H2 Hm']; subst.
    inversion Hp as [|? c3 ? p' H3 Hp']; subst.
    inversion Hf as [|? c4 ? f' H4 Hf']; subst.
    cbn [zip_amounts]. constructor; [|apply IH; assumption].
    constructor; cbn; solve [reflexivity | assumption].
Qed.

(** The frame has one row per record, in the order of the records. *)
Lemma DataFrame_same (items : list item) : Forall2 same_record items (DataFrame items).
Proof. unfold DataFrame. apply zip_amounts_Forall2; apply coerce_Forall2. Qed.

Lemma Forall2_compose {A B C : Type} (P : A -> B -> Prop) (Q : B -> C -> Prop)
    (l1 : list A) (l2 : list B) :
  Forall2 P l1 l2 -> forall l3, Forall2 Q l2 l3 ->
  Forall2 (fun a c => exists b, P a b /\ Q b c) l1 l3.
Proof.
  induction 1 as [|a b l1 l2 Hab _ IH]; intros l3 H3; inversion H3; subst; constructor.
  - exists b. split; assumption.
  - apply IH. assumption.
Qed.

Lemma load_data_records (items : list item) (df : list listing) :
  load_data items = Ok df ->
  Forall2 (fun it r => exists it', same_record it it' /\ enriched it' r) items df.
Proof.
  intros H. apply (Forall2_compose (DataFrame_same items) (@load_data_Forall2 items df H)).
Qed.

Lemma coerced_finite (c c' : cell) :
  coerced c c' -> finite_cell c' = true -> finite_cell c = true.
Proof.
  intros [->| ->]; [tauto|]. destruct c as [|z|x]; try reflexivity. tauto.
Qed.

(** A double that is the image of an integer below [2^53] converts as the
    integer does. *)
Lemma convert_to_won_of_Z (z : Z) :
  - 2 ^ 53 < z < 2 ^ 53 -> convert_to_won (PyFloat (F64.of_Z z)) = Ok (z * 10000).
Proof.
  intros Hz. assert (Ht := F64More.trunc_of_Z Hz).
  unfold convert_to_won, isna, is_None, py_int. rewrite Ht.
  destruct (F64.of_Z z); try discriminate; reflexivity.
Qed.

(** Storing a cell as a double does not change what an integer below
    [2^53], a null or a double converts to. *)
Lemma coerced_convert (c c' : cell) :
  coerced c c' ->
  (forall z, c = PyInt z -> - 2 ^ 53 < z < 2 ^ 53 -> convert_to_won c' = Ok (z * 10000))
  /\ (isna c = true -> convert_to_won c' = Ok 0 /\ isna c' = true)
  /\ (forall x, c = PyFloat x -> c' = PyFloat x).
Proof.
  intros [->| ->]; (split; [|split]).
  - intros z -> _. reflexivity.
  - intros Hn. split; [|exact Hn]. unfold convert_to_won. rewrite Hn. reflexivity.
  - intros x ->. reflexivity.
  - intros z -> Hz. apply convert_to_won_of_Z. exact Hz.
  - intros Hn.
    assert (E : to_float c = F64.nan).
    { destruct c as [|z|x]; try discriminate; [reflexivity|].
      apply F64Facts.isnan_true. exact Hn. }
    rewrite E. split; reflexivity.
  - intros x ->. reflexivity.
Qed.

Lemma small_cell_convert (c c' : cell) :
  coerced c c' -> small_cell c = true ->
  exists z, convert_to_won c' = Ok z /\ fits_int64 z.
Proof.
  intros Hc Hs. destruct (coerced_convert Hc) as (Hint & Hnull & Hfloat).
  destruct c as [|z|x]; cbn [small_cell] in Hs.
  - exists 0. split; [apply Hnull; reflexivity|unfold fits_int64; lia].
  - apply Z.ltb_lt in Hs. exists (z * 10000).
    split; [apply (Hint z eq_refl); lia|unfold fits_int64; lia].
  - rewrite (Hfloat x eq_refl). unfold convert_to_won, isna, is_None, py_int.
    destruct (F64.trunc x) as [t|] eqn:Et.
    + apply Z.ltb_lt in Hs. destruct (F64.isnan x).
      * exists 0. split; [reflexivity|unfold fits_int64; lia].
      * exists (t * 10000). split; [reflexivity|unfold fits_int64; lia].
    + rewrite Hs. exists 0. split; [reflexivity|unfold fits_int64; lia].
Qed.

Lemma same_record_finite (it it' : item) :
  same_record it it' -> finite_amounts it' = true -> finite_amounts it = true.
Proof.
  intros Hs. unfold finite_amounts. rewrite !andb_true_iff.
  intros [[[H1 H2] H3] H4].
  repeat split; eapply coerced_finite; eauto using same_deposit, same_rent, same_premium,
    same_maint.
Qed.

Lemma same_record_small (it it' : item) :
  same_record it it' -> small_amounts it = true -> finite_amounts it' = true.
Proof.
  intros Hs. unfold small_amounts, finite_amounts. rewrite !andb_true_iff.
  intros [[[H1 H2] H3] H4].
  destruct (small_cell_convert (same_deposit Hs) H1) as (z1 & E1 & _).
  destruct (small_cell_convert (same_rent Hs) H2) as (z2 & E2 & _).
  destruct (small_cell_convert (same_premium Hs) H3) as (z3 & E3 & _).
  destruct (small_cell_convert (same_maint Hs) H4) as (z4 & E4 & _).
  repeat split; eapply convert_to_won_Ok_finite; eassumption.
Qed.

Lemma Forall2_length_eq {A B : Type} (P : A -> B -> Prop) (l : list A) (l' : list B) :
  Forall2 P l l' -> List.length l' = List.length l.
Proof. induction 1; cbn [List.length]; congruence. Qed.

End LoaderMore.

(** X1: [load_data] raises [KeyError] on an empty list of records and
    [OverflowError] as soon as a raw deposit, rent, premium or maintenance
    fee is an infinite double; on at least one record whose raw amounts all
    convert to int64 values it returns a frame with one row per record and
    int64 columns. *)
Theorem load_data_outcome (items : list item) :
  (items = [] -> load_data items = Raise KeyError)
  /\ (forallb finite_amounts items = false -> load_data items = Raise OverflowError)
  /\ (items <> [] -> forallb small_amounts items = true ->
      exists df, load_data items = Ok df /\ int64_frame df
                 /\ List.length df = List.length items).
Proof.
  split; [intros ->; reflexivity|]. split.
  - intros Hinf. destruct items as [|it0 items0] eqn:Ei; [discriminate|]. rewrite <- Ei in *.
    assert (El : load_data items = add_columns (DataFrame items)) by (rewrite Ei; reflexivity).
    rewrite El. destruct (add_columns (DataFrame items)) as [df|e] eqn:E.
    + exfalso. pose proof (add_columns_Forall2 _ E) as HF.
      pose proof (Forall2_compose (DataFrame_same items) HF) as HR.
      assert (Hall : forallb finite_amounts items = true); [|congruence].
      clear - HR.
      induction HR as [|it r items' df' (it' & Hs & He) _ IH]; [reflexivity|].
      cbn [forallb]. rewrite (same_record_finite Hs (enriched_finite He)), IH. reflexivity.
    + rewrite (add_columns_raises _ E). reflexivity.
  - intros Hne Hsmall.
    assert (El : load_data items = add_columns (DataFrame items)).
    { destruct items; [contradiction Hne; reflexivity|reflexivity]. }
    rewrite El.
    destruct (@add_columns_returns (DataFrame items)) as (df & E).
    { pose proof (DataFrame_same items) as HS. clear - HS Hsmall.
      induction HS as [|it it' items items' Hs _ IH]; [reflexivity|].
      cbn [forallb] in *. apply andb_true_iff in Hsmall. destruct Hsmall as [H1 H2].
      rewrite (same_record_small Hs H1), (IH H2). reflexivity. }
    exists df. split; [exact E|].
    pose proof (Forall2_compose (DataFrame_same items) (add_columns_Forall2 _ E)) as HR.
    split; [|apply (Forall2_length_eq HR)].
    clear - HR Hsmall. unfold int64_frame.
    induction HR as [|it r items' df' (it' & Hs & He) _ IH]; constructor.
    + cbn [forallb] in Hsmall. apply andb_true_iff in Hsmall. destruct Hsmall as [H1 _].
      unfold small_amounts in H1. rewrite !andb_true_iff in H1.
      destruct H1 as [[[H1 H2] H3] H4].
      destruct (small_cell_convert (same_deposit Hs) H1) as (z1 & E1 & F1).
      destruct (small_cell_convert (same_rent Hs) H2) as (z2 & E2 & F2).
      destruct (small_cell_convert (same_premium Hs) H3) as (z3 & E3 & F3).
      destruct (small_cell_convert (same_maint Hs) H4) as (z4 & E4 & F4).
      rewrite (enriched_deposit He) in E1. rewrite (enriched_rent He) in E2.
      rewrite (enriched_premium He) in E3. rewrite (enriched_maint He) in E4.
      injection E1 as <-. injection E2 as <-. injection E3 as <-. injection E4 as <-.
      split; [exact F1|split; [exact F2|split; [exact F3|exact F4]]].
    + apply IH. cbn [forallb] in Hsmall. apply andb_true_iff in Hsmall. apply Hsmall.
Qed.

Lemma load_data_outcome_witness :
  load_data [] = Raise KeyError
  /\ load_data [mk_item "d" "food" "1" (PyFloat (S754_infinity false)) (PyInt 1) (PyInt 1)
                        (PyInt 1) zero zero] = Raise OverflowError
  /\ (exists df, load_data sample_items = Ok df /\ int64_frame df
                 /\ List.length df = List.length sample_items).
Proof.
  split; [apply (proj1 (load_data_outcome [])); reflexivity|]. split.
  - apply (proj1 (proj2 (load_data_outcome _))). reflexivity.
  - apply (proj2 (proj2 (load_data_outcome sample_items))); [discriminate|reflexivity].
Defined.

(** X2: the frame returned by [load_data] has one row per record, in the
    order of the file, with the text columns, the size and the area price
    of the record.  Whether or not pandas stored an amount column as
    float64, an integer amount below [2^53] converts to the amount times
    10,000, a null converts to 0 and stays null in the raw column, and a
    double is kept as it is. *)
Theorem load_data_keeps_records (items : list item) (df : list listing) :
  load_data items = Ok df ->
  List.length df = List.length items
  /\ Forall2 (fun it r =>
                (title (raw r) = title it
                 /\ businessLargeCodeName (raw r) = businessLargeCodeName it
                 /\ floor (raw r) = floor it
                 /\ size (raw r) = size it
                 /\ areaPrice (raw r) = areaPrice it)
                /\ kept (deposit it) (deposit (raw r)) (deposit_won r)
                /\ kept (monthlyRent it) (monthlyRent (raw r)) (monthlyRent_won r)
                /\ kept (premium it) (premium (raw r)) (premium_won r)
                /\ kept (maintenanceFee it) (maintenanceFee (raw r)) (maintenanceFee_won r))
             items df.
Proof.
  intros H. pose proof (load_data_records _ H) as HR.
  split; [apply (Forall2_length_eq HR)|].
  assert (Hkept : forall c c' won, coerced c c' -> convert_to_won c' = Ok won -> kept c c' won).
  { intros c c' won Hc E. destruct (coerced_convert Hc) as (Hint & Hnull & Hfloat).
    split; [|split].
    - intros z Ez Hz. specialize (Hint z Ez Hz). congruence.
    - intros Hn. destruct (Hnull Hn) as [E0 Hn']. split; [congruence|exact Hn'].
    - exact Hfloat. }
  clear H. induction HR as [|it r items' df' (it' & Hs & He) _ IH]; constructor; [|exact IH].
  rewrite (enriched_raw He).
  split; [|split; [|split; [|split]]].
  - repeat split; apply Hs.
  - apply Hkept; [apply Hs|apply He].
  - apply Hkept; [apply Hs|apply He].
  - apply Hkept; [apply Hs|apply He].
  - apply Hkept; [apply Hs|apply He].
Qed.

Lemma load_data_keeps_records_witness :
  exists r0 r1,
    load_data rounded_items = Ok [r0; r1]
    /\ monthlyRent (raw r0) = PyFloat (F64.of_Z 2000)
    /\ monthlyRent_won r0 = 2000 * 10000
    /\ monthlyRent_won r1 = 0
    /\ deposit_won r0 = 2 ^ 53 * 10000.
Proof.
  do 2 eexists. split; [vm_compute; reflexivity|].
  pose proof (@load_data_keeps_records rounded_items _ eq_refl) as (_ & HF).
  inversion HF as [|? ? ? ? (_ & _ & (Hrent0 & _) & _) HF']; subst.
  inversion HF' as [|? ? ? ? (_ & _ & (_ & Hrent1 & _) & _) _]; subst.
  split; [reflexivity|]. split; [apply (Hrent0 2000 eq_refl); lia|].
  split; [apply Hrent1; reflexivity|reflexivity].
Defined.

(** X3: every converted column added by [load_data] holds whole multiples
    of 10,000 won, and so does the total investment of an int64 frame when
    the sum of deposit and premium fits int64. *)
Theorem won_columns_multiples (items : list item) (df : list listing) (r : listing) :
  load_data items = Ok df -> In r df ->
  deposit_won r mod 10000 = 0
  /\ monthlyRent_won r mod 10000 = 0
  /\ premium_won r mod 10000 = 0
  /\ maintenanceFee_won r mod 10000 = 0
  /\ (int64_frame df -> fits_int64 (deposit_won r + premium_won r) ->
      total_investment r mod 10000 = 0).
Proof.
  intros H Hin. destruct (@load_data_rows items df r H Hin) as (it & _ & He).
  pose proof (convert_to_won_multiple _ (enriched_deposit He)) as Hd.
  pose proof (convert_to_won_multiple _ (enriched_rent He)) as Hm.
  pose proof (convert_to_won_multiple _ (enriched_premium He)) as Hp.
  pose proof (convert_to_won_multiple _ (enriched_maint He)) as Hf.
  repeat split; try assumption.
  intros _ Hfit. rewrite (enriched_total He), (wrap64_id Hfit).
  rewrite Z.add_mod, Hd, Hp by lia. reflexivity.
Qed.

Lemma won_columns_multiples_witness :
  deposit_won (row 2) mod 10000 = 0
  /\ monthlyRent_won (row 2) mod 10000 = 0
  /\ premium_won (row 2) mod 10000 = 0
  /\ maintenanceFee_won (row 2) mod 10000 = 0
  /\ total_investment (row 2) mod 10000 = 0.
Proof.
  destruct (@won_columns_multiples sample_items sample_df (row 2) sample_loaded)
    as (H1 & H2 & H3 & H4 & H5); [right; right; left; reflexivity|].
  split; [exact H1|split; [exact H2|split; [exact H3|split; [exact H4|]]]].
  apply H5; [exact sample_int64|].
  unfold fits_int64. vm_compute. split; [discriminate|reflexivity].
Defined.

(** X4: [premium_per_size] is an unguarded division.  For a premium within
    the int64 range it is NaN exactly when the size is NaN or both the
    premium and the size are zero; a size of zero under a premium other than
    zero gives an infinity, and an infinite size gives zero. *)
Theorem premium_per_size_cases (items : list item) (df : list listing) (r : listing) :
  load_data items = Ok df -> In r df -> fits_int64 (premium_won r) ->
  (F64.isnan (premium_per_size r) = true <->
     F64.isnan (size (raw r)) = true \/ (premium_won r = 0 /\ is_zero (size (raw r)) = true))
  /\ (premium_won r <> 0 -> is_zero (size (raw r)) = true ->
      is_inf (premium_per_size r) = true)
  /\ (is_inf (size (raw r)) = true -> is_zero (premium_per_size r) = true).
Proof.
  intros H Hin Hp. destruct (@load_data_rows items df r H Hin) as (it & _ & He).
  rewrite (enriched_pps He), (enriched_raw He).
  destruct (@F64More.div_real_cases (F64.of_Z (premium_won r)) (size it)
              (F64More.of_Z_real Hp)) as (Hnan & Hinf & Hzero).
  rewrite (F64More.of_Z_is_zero Hp) in Hnan, Hinf.
  split; [|split].
  - rewrite Hnan, Z.eqb_eq. reflexivity.
  - intros Hnz. apply Hinf. apply Z.eqb_neq. assumption.
  - exact Hzero.
Qed.

(** X5: an integer amount below [2^53] stored as a double, as pandas does
    for a column that also holds a null, converts to the same won amount as
    the integer itself. *)
Theorem convert_to_won_float_column (z : Z) :
  - 2 ^ 53 < z < 2 ^ 53 ->
  convert_to_won (PyFloat (F64.of_Z z)) = Ok (z * 10000)
  /\ convert_to_won (PyFloat (F64.of_Z z)) = convert_to_won (PyInt z).
Proof.
  intros Hz.
  assert (Ht := F64More.trunc_of_Z Hz).
  assert (E : convert_to_won (PyFloat (F64.of_Z z)) = Ok (z * 10000)).
  { unfold convert_to_won, isna, is_None, py_int. rewrite Ht.
    destruct (F64.of_Z z); try discriminate; reflexivity. }
  split; [exact E|]. rewrite E. reflexivity.
Qed.

Lemma convert_to_won_float_column_witness :
  convert_to_won (PyFloat (F64.of_Z 45000)) = Ok (45000 * 10000)
  /\ convert_to_won (PyFloat (F64.of_Z (2 ^ 53 + 1))) = Ok (2 ^ 53 * 10000).
Proof.
  split.
  - apply (proj1 (@convert_to_won_float_column 45000 ltac:(lia))).
  - vm_compute. reflexivity.
Defined.

Lemma sample_int_loaded : load_data sample_int_items = Ok sample_int_df.
Proof. vm_compute. reflexivity. Qed.

Lemma premium_per_size_cases_witness :
  is_zero (size (raw (int_row 3))) = true
  /\ premium_won (int_row 3) <> 0
  /\ is_inf (premium_per_size (int_row 3)) = true.
Proof.
  split; [reflexivity|]. split; [discriminate|].
  destruct (@premium_per_size_cases sample_int_items sample_int_df (int_row 3)
              sample_int_loaded) as (_ & Hinf & _).
  - right. right. right. left. reflexivity.
  - unfold fits_int64. vm_compute. split; [discriminate|reflexivity].
  - apply Hinf; [discriminate|reflexivity].
Defined.

(** ** The sidebar defaults *)

Section Sidebar.

Lemma unique_In (s : Series string) (x : string) : In x (unique s) <-> In x s.
Proof.
  induction s as [|y s IH]; cbn [unique]; [reflexivity|].
  cbn [In]. rewrite filter_In, IH, negb_true_iff, String.eqb_neq.
  destruct (String.string_dec y x) as [->|Hne]; [tauto|].
  split; [tauto|]. intros [H|H]; [tauto|]. right. split; [assumption|congruence].
Qed.

Lemma unique_NoDup (s : Series string) : NoDup (unique s).
Proof.
  induction s as [|y s IH]; cbn [unique]; constructor.
  - rewrite filter_In, String.eqb_refl. intros [_ H]. discriminate.
  - apply NoDup_filter. exact IH.
Qed.

Lemma sorted_In (l : list string) (x : string) : In x (sorted l) <-> In x l.
Proof.
  pose proof (StringSort.Permuted_sort l) as HP. split.
  - apply Permutation_in. symmetry. exact HP.
  - apply Permutation_in. exact HP.
Qed.

Lemma in_set_options (f : listing -> string) (df : list listing) (r : listing) :
  In r df -> in_set (f r) (sorted (unique (column f df))) = true.
Proof.
  intros Hin. apply in_set_In. apply sorted_In, unique_In. unfold column.
  apply in_map. exact Hin.
Qed.

Lemma fold_max_bound (zs : list Z) : forall z x,
  x <= z \/ In x zs -> x <= fold_left Z.max zs z.
Proof.
  induction zs as [|y zs IH]; intros z x Hx; cbn [fold_left].
  - destruct Hx as [Hx|[]]. exact Hx.
  - apply IH. destruct Hx as [Hx|[E|Hx]]; [left; lia|left; lia|right; exact Hx].
Qed.

Lemma fold_max_upper (zs : list Z) (z x : Z) : In x (z :: zs) -> x <= fold_left Z.max zs z.
Proof.
  intros [E|Hin]; apply fold_max_bound; [left; lia|right; exact Hin].
Qed.

Lemma all_int_map (s : Series cell) :
  forallb is_int s = true -> exists zs, all_int s = Some zs /\ s = map PyInt zs.
Proof.
  induction s as [|c s IH]; cbn [forallb all_int fold_right].
  - intros _. exists []. split; reflexivity.
  - rewrite andb_true_iff. intros [Hc Hs]. destruct (IH Hs) as (zs & E & ->).
    destruct c as [|z|x]; try discriminate.
    fold (all_int (map PyInt zs)). rewrite E.
    exists (z :: zs). split; reflexivity.
Qed.

(** On an int64 column without nulls the maximum is one of its integers
    and bounds all of them. *)
Lemma series_max_int (s : Series cell) :
  s <> [] -> forallb is_int s = true ->
  exists M, series_max s = PyInt M /\ forall z, In (PyInt z) s -> z <= M.
Proof.
  intros Hne Hall. destruct (all_int_map s Hall) as (zs & E & ->).
  unfold series_max. rewrite E. destruct zs as [|z zs]; [contradiction Hne; reflexivity|].
  eexists. split; [reflexivity|]. intros x Hin.
  apply fold_max_upper. apply in_map_iff in Hin. destruct Hin as (y & [= ->] & Hy).
  exact Hy.
Qed.

Lemma nanmax_fold_upper (s : Series F64.float) : forall acc,
  (F64.isnan (fold_left (fun acc x =>
                           if F64.isnan x then acc
                           else if F64.isnan acc then x
                           else if F64.leb acc x then x else acc) s acc) = true ->
     F64.isnan acc = true /\ Forall (fun x => F64.isnan x = true) s)
  /\ (F64.isnan acc = false ->
      F64.leb acc (fold_left (fun acc x =>
                                if F64.isnan x then acc
                                else if F64.isnan acc then x
                                else if F64.leb acc x then x else acc) s acc) = true)
  /\ (forall x, In x s -> F64.isnan x = false ->
      F64.leb x (fold_left (fun acc x =>
                              if F64.isnan x then acc
                              else if F64.isnan acc then x
                              else if F64.leb acc x then x else acc) s acc) = true).
Proof.
  induction s as [|y s IH]; intros acc; cbn [fold_left].
  - split; [|split].
    + intros H. split; [assumption|constructor].
    + apply F64Facts.leb_refl.
    + intros x [].
  - set (step := if F64.isnan y then acc
                 else if F64.isnan acc then y else if F64.leb acc y then y else acc).
    destruct (IH step) as (IHn & IHa & IHx).
    assert (Hstep_nan : F64.isnan step = true -> F64.isnan acc = true /\ F64.isnan y = true).
    { subst step. destruct (F64.isnan y) eqn:Ey; [tauto|].
      destruct (F64.isnan acc) eqn:Ea; [congruence|].
      destruct (F64.leb acc y); congruence. }
    assert (Hacc : F64.isnan acc = false -> F64.isnan step = false /\ F64.leb acc step = true).
    { intros Ha. subst step. rewrite Ha. destruct (F64.isnan y) eqn:Ey.
      - split; [assumption|apply F64Facts.leb_refl; assumption].
      - destruct (F64.leb acc y) eqn:El.
        + split; assumption.
        + split; [assumption|apply F64Facts.leb_refl; assumption]. }
    assert (Hy : F64.isnan y = false -> F64.isnan step = false /\ F64.leb y step = true).
    { intros Ey. subst step. rewrite Ey. destruct (F64.isnan acc) eqn:Ea.
      - split; [assumption|apply F64Facts.leb_refl; assumption].
      - destruct (F64.leb acc y) eqn:El.
        + split; [assumption|apply F64Facts.leb_refl; assumption].
        + split; [assumption|].
          destruct (@F64More.leb_total_float acc y Ea Ey); congruence. }
    split; [|split].
    + intros H. destruct (IHn H) as [Hs Hall]. destruct (Hstep_nan Hs) as [Ha Ey].
      split; [assumption|constructor; assumption].
    + intros Ha. destruct (Hacc Ha) as [Hs Hl].
      apply (@F64Facts.leb_trans acc step); [assumption|apply IHa; assumption].
    + intros x [<-|Hin] Hx.
      * destruct (Hy Hx) as [Hs Hl].
        apply (@F64Facts.leb_trans y step); [assumption|apply IHa; assumption].
      * apply IHx; assumption.
Qed.

Lemma nanmax_upper (s : Series F64.float) (x : F64.float) :
  In x s -> F64.isnan x = false -> F64.leb x (nanmax s) = true.
Proof. intros Hin Hx. apply (proj2 (proj2 (nanmax_fold_upper s F64.nan))); assumption. Qed.

Lemma nanmax_all_nan (s : Series F64.float) :
  Forall (fun x => F64.isnan x = true) s -> nanmax s = F64.nan.
Proof.
  unfold nanmax. induction 1 as [|x s Hx _ IH]; cbn [fold_left]; [reflexivity|].
  rewrite Hx. exact IH.
Qed.

Lemma leb_zero_not_nan (x : F64.float) : F64.leb zero x = true -> F64.isnan x = false.
Proof. destruct x; try reflexivity. discriminate. Qed.

(** A column whose cells are all null has NaN as its maximum. *)
Lemma series_max_all_null (s : Series cell) :
  forallb isna s = true -> series_max s = PyFloat F64.nan.
Proof.
  intros Hall. unfold series_max.
  assert (Hnan : nanmax (map to_float s) = F64.nan).
  { apply nanmax_all_nan. apply Forall_forall. intros x Hx.
    apply in_map_iff in Hx. destruct Hx as (c & <- & Hc).
    rewrite forallb_forall in Hall. specialize (Hall c Hc).
    destruct c as [|z|y]; try discriminate; [reflexivity|exact Hall]. }
  destruct s as [|c s]; [reflexivity|].
  cbn [forallb] in Hall. apply andb_true_iff in Hall. destruct Hall as [Hc _].
  assert (E : all_int (c :: s) = None).
  { cbn [all_int fold_right]. destruct c as [|z|y]; try discriminate; reflexivity. }
  rewrite E, Hnan. reflexivity.
Qed.

(** A sidebar that was built holds the two truncated maxima as the upper
    bounds of its integer ranges. *)
Lemma default_sidebar_Ok (df : list listing) (sb : sidebar) :
  default_sidebar df = Ok sb ->
  exists M D,
    py_int (series_max (column (fun r => monthlyRent (raw r)) df)) = Ok M
    /\ py_int (series_max (column (fun r => deposit (raw r)) df)) = Ok D
    /\ sb = {| selected_business :=
                 sorted (unique (column (fun r => businessLargeCodeName (raw r)) df));
               selected_floors := sorted (unique (column (fun r => floor (raw r)) df));
               rent_range := (0, M);
               deposit_range := (0, D);
               size_range := (zero, nanmax (column (fun r => size (raw r)) df)) |}.
Proof.
  unfold default_sidebar, slider, slider_float.
  destruct (py_int (series_max (column (fun r => monthlyRent (raw r)) df))) as [M|e];
    cbn [bind]; [|discriminate].
  destruct (_ || _ || _); cbn [bind]; [discriminate|].
  destruct (py_int (series_max (column (fun r => deposit (raw r)) df))) as [D|e];
    cbn [bind]; [|discriminate].
  destruct (_ || _ || _); cbn [bind]; [discriminate|].
  destruct (_ || _ || _); cbn [bind]; [discriminate|].
  intros [= <-]. exists M, D. repeat split.
Qed.

End Sidebar.

(** X6: the options offered by the business-type and floor multiselects
    are the distinct values of the column, each once, in ascending order. *)
Theorem sidebar_options (s : Series string) :
  Sorted (fun x y => String.leb x y = true) (sorted (unique s))
  /\ NoDup (sorted (unique s))
  /\ (forall x, In x (sorted (unique s)) <-> In x s).
Proof.
  split; [|split].
  - exact (StringSort.Sorted_sort (unique s)).
  - apply (Permutation_NoDup (StringSort.Permuted_sort (unique s))), unique_NoDup.
  - intros x. rewrite sorted_In. apply unique_In.
Qed.

Lemma default_satisfies (df : list listing) (M D : Z) (r : listing) :
  In r df ->
  (forall z, monthlyRent (raw r) = PyInt z -> z <= M) ->
  (forall z, deposit (raw r) = PyInt z -> z <= D) ->
  is_int (monthlyRent (raw r)) = true -> is_int (deposit (raw r)) = true ->
  satisfies
    {| selected_business := sorted (unique (column (fun r => businessLargeCodeName (raw r)) df));
       selected_floors := sorted (unique (column (fun r => floor (raw r)) df));
       rent_range := (0, M);
       deposit_range := (0, D);
       size_range := (zero, nanmax (column (fun r => size (raw r)) df)) |} r
  = nonneg_row r.
Proof.
  intros Hin HM HD Hri Hdi. unfold satisfies, nonneg_row.
  cbn [selected_business selected_floors rent_range deposit_range size_range].
  rewrite (@in_set_options (fun r => businessLargeCodeName (raw r)) df r Hin).
  rewrite (@in_set_options (fun r => floor (raw r)) df r Hin).
  unfold in_range, in_range_float. cbn [fst snd andb].
  destruct (monthlyRent (raw r)) as [|zr|xr] eqn:Er; try discriminate.
  destruct (deposit (raw r)) as [|zd|xd] eqn:Ed; try discriminate.
  cbn [cell_ge cell_le].
  assert (Hr : (zr <=? M) = true) by (apply Z.leb_le, HM; reflexivity).
  assert (Hd : (zd <=? D) = true) by (apply Z.leb_le, HD; reflexivity).
  rewrite Hr, Hd, !andb_true_r.
  destruct (F64.leb zero (size (raw r))) eqn:Es; [|rewrite !andb_false_r; reflexivity].
  rewrite (@nanmax_upper (column (fun r => size (raw r)) df) (size (raw r))).
  - reflexivity.
  - unfold column. apply (in_map (fun r => size (raw r))). exact Hin.
  - apply leb_zero_not_nan. exact Es.
Qed.

Lemma filter_all {A : Type} (p : A -> bool) (l : list A) :
  forallb p l = true -> filter p l = l.
Proof.
  induction l as [|a l IH]; cbn [forallb filter]; [reflexivity|].
  rewrite andb_true_iff. intros [Ha Hl]. rewrite Ha, (IH Hl). reflexivity.
Qed.

(** X7: when the rent and deposit columns hold integers only and the
    sidebar is built, the filter under the sidebar defaults shows exactly
    the rows whose rent and deposit are not below 0 and whose size is a
    number not below 0.0; it shows every row when all of them are so. *)
Theorem default_view (df : list listing) (sb : sidebar) :
  default_sidebar df = Ok sb ->
  forallb (fun r => is_int (monthlyRent (raw r))) df = true ->
  forallb (fun r => is_int (deposit (raw r))) df = true ->
  filtered_df df sb = filter nonneg_row df
  /\ (forallb nonneg_row df = true -> filtered_df df sb = df).
Proof.
  intros Hsb Hrent Hdep.
  destruct (default_sidebar_Ok _ Hsb) as (M & D & EM & ED & ->). clear Hsb.
  assert (Hne : df <> []) by (intros ->; discriminate).
  assert (Hcol : forall (f : listing -> cell) (B : Z),
            forallb (fun r => is_int (f r)) df = true ->
            py_int (series_max (column f df)) = Ok B ->
            forall r z, In r df -> f r = PyInt z -> z <= B).
  { intros f B Hf EB.
    destruct (@series_max_int (column f df)) as (B' & EB' & HB).
    - unfold column. destruct df; [contradiction Hne; reflexivity|discriminate].
    - unfold column. rewrite forallb_forall in *. intros c Hc.
      apply in_map_iff in Hc. destruct Hc as (r & <- & Hr). apply Hf, Hr.
    - rewrite EB' in EB. injection EB as <-. intros r z Hr Ez. apply HB.
      rewrite <- Ez. unfold column. apply in_map. exact Hr. }
  pose proof (Hcol _ M Hrent EM) as HM.
  pose proof (Hcol _ D Hdep ED) as HD.
  assert (Hf : filtered_df df
                 {| selected_business :=
                      sorted (unique (column (fun r => businessLargeCodeName (raw r)) df));
                    selected_floors := sorted (unique (column (fun r => floor (raw r)) df));
                    rent_range := (0, M);
                    deposit_range := (0, D);
                    size_range := (zero, nanmax (column (fun r => size (raw r)) df)) |}
               = filter nonneg_row df).
  { rewrite filtered_df_filter. apply filter_ext_in. intros r Hr.
    rewrite forallb_forall in Hrent, Hdep.
    apply default_satisfies; auto.
    - intros z Ez. apply (HM r z Hr Ez).
    - intros z Ez. apply (HD r z Hr Ez). }
  split; [exact Hf|]. intros Hall. rewrite Hf. apply filter_all. exact Hall.
Qed.

Lemma default_view_witness :
  exists sb,
    default_sidebar sample_int_df = Ok sb
    /\ rent_range sb = (0, 50)
    /\ filtered_df sample_int_df sb = filter nonneg_row sample_int_df.
Proof.
  eexists. split; [vm_compute; reflexivity|]. split; [reflexivity|].
  apply (@default_view sample_int_df _ eq_refl); reflexivity.
Defined.

Example default_view_sample :
  filter nonneg_row sample_int_df = [int_row 0; int_row 1; int_row 3].
Proof. vm_compute. reflexivity. Qed.

(** X8: when every raw rent of the frame is null, [int(df['monthlyRent'].max())]
    raises [ValueError] and no sidebar is built; when every raw deposit is
    null no sidebar is built either. *)
Theorem default_sidebar_all_null (df : list listing) :
  df <> [] ->
  (forallb (fun r => isna (monthlyRent (raw r))) df = true ->
     default_sidebar df = Raise ValueError)
  /\ (forallb (fun r => isna (deposit (raw r))) df = true ->
     forall sb, default_sidebar df <> Ok sb).
Proof.
  intros _.
  assert (Hcol : forall f : listing -> cell,
            forallb (fun r => isna (f r)) df = true ->
            py_int (series_max (column f df)) = Raise ValueError).
  { intros f Hf. rewrite series_max_all_null; [reflexivity|].
    unfold column. rewrite forallb_forall in *. intros c Hc.
    apply in_map_iff in Hc. destruct Hc as (r & <- & Hr). apply Hf, Hr. }
  split.
  - intros Hall. unfold default_sidebar. rewrite (Hcol _ Hall). reflexivity.
  - intros Hall sb Hsb. destruct (default_sidebar_Ok _ Hsb) as (M & D & _ & ED & _).
    rewrite (Hcol _ Hall) in ED. discriminate.
Qed.

Lemma default_sidebar_all_null_witness :
  default_sidebar sample_null_rent_df = Raise ValueError.
Proof.
  apply (proj1 (@default_sidebar_all_null sample_null_rent_df ltac:(discriminate))).
  reflexivity.
Defined.

(** ** The detail panel *)

Section Detail.

Lemma selected_item_filter (filtered : list listing) (t : string) :
  selected_item filtered t
  = iloc_0 (filter (fun r => String.eqb (title (raw r)) t) filtered).
Proof.
  unfold selected_item, column. rewrite map_map, boolean_index_map. reflexivity.
Qed.

Lemma filter_first (p : listing -> bool) (l : list listing) :
  existsb p l = true ->
  exists r before after,
    l = before ++ r :: after
    /\ p r = true
    /\ Forall (fun q => p q = false) before
    /\ filter p l = r :: filter p after.
Proof.
  induction l as [|a l IH]; cbn [existsb filter]; [discriminate|].
  destruct (p a) eqn:Ea.
  - intros _. exists a, [], l.
    split; [reflexivity|]. split; [exact Ea|]. split; [constructor|reflexivity].
  - cbn [orb]. intros H. destruct (IH H) as (r & before & after & El & Hr & Hb & Hf).
    exists r, (a :: before), after.
    split; [rewrite El; reflexivity|]. split; [exact Hr|].
    split; [constructor; assumption|exact Hf].
Qed.

Lemma title_options_nil (filtered : list listing) :
  title_options filtered = [] <-> filtered = [].
Proof.
  unfold title_options, column. destruct filtered; cbn [map unique].
  - tauto.
  - split; discriminate.
Qed.

Lemma format_f_nan_iff (grouping : bool) (ndigits : nat) (x : F64.float) :
  format_f grouping ndigits x = "nan"%string <-> F64.isnan x = true.
Proof.
  split.
  - intros E. destruct (F64.isnan x) eqn:Ex; [reflexivity|exfalso].
    destruct (@format_f_numeric grouping ndigits x Ex) as (c & rest & Ec & Hc).
    rewrite Ec in E. injection E as -> _. apply Hc. reflexivity.
  - intros Ex. apply F64Facts.isnan_true in Ex. subst x. reflexivity.
Qed.

End Detail.

(** X9: the title selectbox has no option exactly when the filtered frame
    has no row; for every title it offers, [.iloc[0]] finds a row, which is
    the first filtered row with that title, comes from the frame and passes
    the filter. *)
Theorem selected_item_first (df : list listing) (sb : sidebar) :
  (title_options (filtered_df df sb) = [] <-> filtered_df df sb = [])
  /\ (forall t, In t (title_options (filtered_df df sb)) ->
      exists r,
        selected_item (filtered_df df sb) t = Some r
        /\ first_with_title (filtered_df df sb) t r
        /\ In r df
        /\ satisfies sb r = true).
Proof.
  split; [apply title_options_nil|].
  intros t Ht. unfold title_options in Ht. apply (proj1 (unique_In _ _)) in Ht.
  unfold column in Ht. apply in_map_iff in Ht. destruct Ht as (r0 & Et & Hr0).
  destruct (@filter_first (fun r => String.eqb (title (raw r)) t) (filtered_df df sb))
    as (r & before & after & El & Hr & Hb & Hf).
  { apply existsb_exists. exists r0. split; [exact Hr0|]. apply String.eqb_eq. exact Et. }
  exists r. rewrite selected_item_filter, Hf. split; [reflexivity|].
  assert (Hin : In r (filtered_df df sb)).
  { rewrite El. apply in_or_app. right. left. reflexivity. }
  split; [|rewrite filtered_df_filter, filter_In in Hin; exact Hin].
  exists before, after. split; [exact El|]. split; [apply String.eqb_eq; exact Hr|].
  apply Forall_forall. intros q Hq. rewrite Forall_forall in Hb.
  apply String.eqb_neq. apply Hb. exact Hq.
Qed.

Lemma selected_item_first_witness :
  exists r,
    selected_item (filtered_df sample_int_df sb_all) "a" = Some r
    /\ first_with_title (filtered_df sample_int_df sb_all) "a" r
    /\ In r sample_int_df
    /\ satisfies sb_all r = true.
Proof.
  apply (proj2 (selected_item_first sample_int_df sb_all)).
  vm_compute. left. reflexivity.
Defined.

(** X10: for a row of the frame whose amounts fit the int64 columns, the
    info box prints [nan] as the yield exactly when the total investment is
    0, and [nan] as the payback period exactly when the converted rent is
    0. *)
Theorem detail_text_nan (items : list item) (df : list listing) (r : listing) :
  load_data items = Ok df -> In r df ->
  fits_int64 (monthlyRent_won r * 12) ->
  fits_int64 (total_investment r) ->
  (roi_text r = "nan"%string <-> total_investment r = 0)
  /\ (payback_text r = "nan"%string <-> monthlyRent_won r = 0).
Proof.
  intros H Hin Hm Ht. destruct (@load_data_rows items df r H Hin) as (it & _ & He).
  unfold roi_text, payback_text. rewrite !format_f_nan_iff.
  rewrite (enriched_roi He), (enriched_payback He), (wrap64_id Hm). split.
  - rewrite percent_nan_iff. apply ratio_nan_iff; assumption.
  - rewrite ratio_nan_iff by assumption. lia.
Qed.

Lemma detail_text_nan_witness :
  roi_text (row 1) = "nan"%string /\ payback_text (row 1) = "nan"%string
  /\ roi_text (row 0) = "20.00"%string /\ payback_text (row 0) = "5.0"%string.
Proof.
  destruct (@detail_text_nan sample_items sample_df (row 1) sample_loaded) as (Hroi & Hpay).
  - right. left. reflexivity.
  - unfold fits_int64. vm_compute. split; [discriminate|reflexivity].
  - unfold fits_int64. vm_compute. split; [discriminate|reflexivity].
  - split; [apply Hroi; reflexivity|]. split; [apply Hpay; reflexivity|].
    split; vm_compute; reflexivity.
Defined.

(** ** The KPI cards *)

Section Cards.
Import F64 F64Facts.

Lemma nansum_fold_not_nan (s : Series float) : forall acc,
  Forall (fun x => is_real x = true) s -> isnan acc = false ->
  isnan (fold_left (fun acc x => if isnan x then acc else add acc x) s acc) = false.
Proof.
  induction s as [|x s IH]; intros acc Hs Hacc; cbn [fold_left]; [exact Hacc|].
  inversion Hs as [|? ? Hx Hs']; subst. apply IH; [exact Hs'|].
  destruct (isnan x); [exact Hacc|]. apply F64More.add_not_nan; assumption.
Qed.

Lemma defined_all_real (s : Series float) :
  Forall (fun x => is_real x = true) s -> defined s = s.
Proof.
  unfold defined. induction 1 as [|x s Hx _ IH]; cbn [filter]; [reflexivity|].
  rewrite (F64More.is_real_not_nan _ Hx). cbn [negb]. rewrite IH. reflexivity.
Qed.

(** The mean of an integer column with at least one row is a number. *)
Lemma mean_int_not_nan (zs : Series Z) :
  zs <> [] -> Forall fits_int64 zs -> Z.of_nat (List.length zs) < 2 ^ 63 ->
  isnan (mean_int zs) = false.
Proof.
  intros Hne Hfit Hlen. unfold mean_int, mean, notna_count.
  assert (Hreal : Forall (fun x => is_real x = true) (map of_Z zs)).
  { apply Forall_forall. intros x Hx. apply in_map_iff in Hx.
    destruct Hx as (z & <- & Hz). apply F64More.of_Z_real.
    rewrite Forall_forall in Hfit. apply Hfit, Hz. }
  fold (defined (map of_Z zs)). rewrite (defined_all_real Hreal), length_map.
  assert (Hpos : 0 < Z.of_nat (List.length zs)).
  { destruct zs; [contradiction Hne; reflexivity|cbn [List.length]; lia]. }
  assert (E : (0 <? Z.of_nat (List.length zs)) = true) by (apply Z.ltb_lt; exact Hpos).
  rewrite E. apply div_not_nan.
  - apply nansum_fold_not_nan; [exact Hreal|reflexivity].
  - apply of_Z_finite; [unfold fits_int64; lia|lia].
Qed.

Lemma format_won_nan_iff (val : float) :
  format_won val = format_won nan <-> isnan val = true.
Proof.
  split.
  - intros E. destruct (isnan val) eqn:Ev; [reflexivity|exfalso].
    destruct (@format_won_numeric val Ev) as (c & rest & Ec & Hc).
    rewrite Ec, format_won_nan_value in E. injection E as -> _. apply Hc. reflexivity.
  - intros Ev. apply isnan_true in Ev. subst val. reflexivity.
Qed.

Lemma column_nil {A : Type} (f : listing -> A) (filtered : list listing) :
  column f filtered = [] <-> filtered = [].
Proof. unfold column. destruct filtered; cbn [map]; split; (reflexivity || discriminate). Qed.

Lemma card_nan_iff (f : listing -> Z) (filtered : list listing) :
  Forall (fun r => fits_int64 (f r)) filtered ->
  Z.of_nat (List.length filtered) < 2 ^ 63 ->
  (format_won (mean_int (column f filtered)) = format_won nan <-> filtered = []).
Proof.
  intros Hfit Hlen. rewrite format_won_nan_iff. split.
  - intros Hn. destruct filtered as [|r rest]; [reflexivity|exfalso].
    rewrite mean_int_not_nan in Hn; [discriminate|discriminate| |].
    + unfold column. apply Forall_forall. intros z Hz. apply in_map_iff in Hz.
      destruct Hz as (q & <- & Hq). rewrite Forall_forall in Hfit. apply Hfit, Hq.
    + unfold column. rewrite length_map. exact Hlen.
  - intros ->. reflexivity.
Qed.

End Cards.

(** X11: over rows whose amounts fit the int64 columns, each of the four
    won cards (rent, deposit, premium, maintenance fee) reads ["nan만"]
    exactly when no listing passes the filter; the area-price card reads
    ["nan만"] then as well. *)
Theorem kpi_cards_nan (filtered : list listing) :
  Forall (fun r => fits_int64 (monthlyRent_won r) /\ fits_int64 (deposit_won r)
                   /\ fits_int64 (premium_won r) /\ fits_int64 (maintenanceFee_won r))
         filtered ->
  Z.of_nat (List.length filtered) < 2 ^ 63 ->
  (forall i, In i [0; 1; 2; 4]%nat ->
     (nth i (kpi_cards filtered) EmptyString = "nan만"%string <-> filtered = []))
  /\ (filtered = [] -> nth 3 (kpi_cards filtered) EmptyString = "nan만"%string).
Proof.
  intros Hfit Hlen.
  assert (Hcol : forall f : listing -> Z,
            (forall r, In r filtered -> fits_int64 (f r)) ->
            (format_won (mean_int (column f filtered)) = "nan만"%string <-> filtered = [])).
  { intros f Hf. apply (@card_nan_iff f filtered); [|exact Hlen].
    apply Forall_forall. exact Hf. }
  rewrite Forall_forall in Hfit.
  split.
  - intros i Hi. unfold kpi_cards, kpi_means.
    cbn [avg_rent avg_deposit avg_premium avg_area_price avg_maint].
    destruct Hi as [<-|[<-|[<-|[<-|[]]]]]; cbn [nth]; apply Hcol; intros r Hr;
      apply (Hfit r Hr).
  - intros ->. reflexivity.
Qed.

Lemma kpi_cards_nan_witness :
  nth 0 (kpi_cards (filtered_df sample_df sb_all)) EmptyString <> "nan만"%string
  /\ kpi_cards (filtered_df sample_df sb_all)
     = ["25만"; "500만"; "1,000만"; "5만"; "5만"]%string.
Proof.
  split.
  - intros E.
    destruct (@kpi_cards_nan (filtered_df sample_df sb_all)) as (Hcards & _).
    + repeat constructor; vm_compute; congruence.
    + vm_compute. reflexivity.
    + apply (Hcards 0%nat) in E; [discriminate E|left; reflexivity].
  - vm_compute. reflexivity.
Defined.

(** ** Raw ranges and converted amounts *)

Section Ranges.
Import F64.

Lemma geb_Z_trunc (x : float) (lo t : Z) :
  trunc x = Some t -> geb_Z x lo = true -> lo <= t.
Proof.
  unfold geb_Z, compare_Z, trunc.
  destruct x as [sg|sg| |sg m e]; try discriminate.
  - intros Ht. assert (t = 0) by congruence. subst t.
    destruct (Z.compare_spec 0 lo); intros Hc; try discriminate; lia.
  - destruct e as [|p|p]; intros Ht.
    + assert (Et : t = if sg then - (Z.pos m * 2 ^ 0) else Z.pos m * 2 ^ 0) by congruence.
      destruct sg;
        [destruct (Z.compare_spec (Z.neg m * 2 ^ 0) lo)
        |destruct (Z.compare_spec (Z.pos m * 2 ^ 0) lo)];
        intros Hc; try discriminate; lia.
    + assert (Et : t = if sg then - (Z.pos m * 2 ^ Z.pos p) else Z.pos m * 2 ^ Z.pos p)
        by congruence.
      destruct sg;
        [destruct (Z.compare_spec (Z.neg m * 2 ^ Z.pos p) lo)
        |destruct (Z.compare_spec (Z.pos m * 2 ^ Z.pos p) lo)];
        intros Hc; try discriminate; lia.
    + assert (Et : t = if sg then - (Z.pos m / 2 ^ Z.pos p) else Z.pos m / 2 ^ Z.pos p)
        by congruence.
      assert (Hp : 0 < 2 ^ Z.pos p) by (apply Z.pow_pos_nonneg; lia).
      pose proof (Z.mul_div_le (Z.pos m) (2 ^ Z.pos p) Hp) as Hlow.
      pose proof (Z.mul_succ_div_gt (Z.pos m) (2 ^ Z.pos p) Hp) as Hhigh.
      destruct sg;
        [destruct (Z.compare_spec (Z.neg m) (lo * 2 ^ Z.pos p))
        |destruct (Z.compare_spec (Z.pos m) (lo * 2 ^ Z.pos p))];
        intros Hc; try discriminate; subst t; nia.
Qed.

Lemma leb_Z_trunc (x : float) (hi t : Z) :
  trunc x = Some t -> leb_Z x hi = true -> t <= hi.
Proof.
  unfold leb_Z, compare_Z, trunc.
  destruct x as [sg|sg| |sg m e]; try discriminate.
  - intros Ht. assert (t = 0) by congruence. subst t.
    destruct (Z.compare_spec 0 hi); intros Hc; try discriminate; lia.
  - destruct e as [|p|p]; intros Ht.
    + assert (Et : t = if sg then - (Z.pos m * 2 ^ 0) else Z.pos m * 2 ^ 0) by congruence.
      destruct sg;
        [destruct (Z.compare_spec (Z.neg m * 2 ^ 0) hi)
        |destruct (Z.compare_spec (Z.pos m * 2 ^ 0) hi)];
        intros Hc; try discriminate; lia.
    + assert (Et : t = if sg then - (Z.pos m * 2 ^ Z.pos p) else Z.pos m * 2 ^ Z.pos p)
        by congruence.
      destruct sg;
        [destruct (Z.compare_spec (Z.neg m * 2 ^ Z.pos p) hi)
        |destruct (Z.compare_spec (Z.pos m * 2 ^ Z.pos p) hi)];
        intros Hc; try discriminate; lia.
    + assert (Et : t = if sg then - (Z.pos m / 2 ^ Z.pos p) else Z.pos m / 2 ^ Z.pos p)
        by congruence.
      assert (Hp : 0 < 2 ^ Z.pos p) by (apply Z.pow_pos_nonneg; lia).
      pose proof (Z.mul_div_le (Z.pos m) (2 ^ Z.pos p) Hp) as Hlow.
      pose proof (Z.mul_succ_div_gt (Z.pos m) (2 ^ Z.pos p) Hp) as Hhigh.
      destruct sg;
        [destruct (Z.compare_spec (Z.neg m) (hi * 2 ^ Z.pos p))
        |destruct (Z.compare_spec (Z.pos m) (hi * 2 ^ Z.pos p))];
        intros Hc; try discriminate; subst t; nia.
Qed.

(** A cell inside a raw range converts to an amount inside the range
    scaled by 10,000. *)
Lemma in_range_won (c : cell) (range : Z * Z) (won : Z) :
  in_range c range = true -> convert_to_won c = Ok won ->
  fst range * 10000 <= won <= snd range * 10000.
Proof.
  unfold in_range. rewrite andb_true_iff. intros [Hge Hle].
  destruct c as [|z|x]; cbn [cell_ge cell_le] in Hge, Hle; try discriminate.
  - cbn. intros [= <-]. apply Z.leb_le in Hge, Hle. lia.
  - unfold convert_to_won, isna, is_None, py_int.
    destruct (isnan x) eqn:Ex.
    + apply F64Facts.isnan_true in Ex. subst x. discriminate.
    + cbn [orb]. destruct (trunc x) as [t|] eqn:Et; cbn [bind]; [|discriminate].
      intros [= <-].
      pose proof (geb_Z_trunc _ _ Et Hge). pose proof (leb_Z_trunc _ _ Et Hle). lia.
Qed.

End Ranges.

(** X12: the filter tests the raw columns, and the converted columns
    follow: every row it keeps has its converted rent and deposit inside the
    selected ranges scaled by 10,000. *)
Theorem filtered_won_ranges (items : list item) (df : list listing) (sb : sidebar)
    (r : listing) :
  load_data items = Ok df -> In r (filtered_df df sb) ->
  fst (rent_range sb) * 10000 <= monthlyRent_won r <= snd (rent_range sb) * 10000
  /\ fst (deposit_range sb) * 10000 <= deposit_won r <= snd (deposit_range sb) * 10000.
Proof.
  intros H Hin. rewrite filtered_df_filter, filter_In in Hin. destruct Hin as [Hin Hsat].
  destruct (@load_data_rows items df r H Hin) as (it & _ & He).
  unfold satisfies in Hsat. rewrite !andb_true_iff in Hsat.
  destruct Hsat as [[[_ Hrent] Hdep] _].
  rewrite (enriched_raw He) in Hrent, Hdep. split.
  - apply (in_range_won _ _ Hrent (enriched_rent He)).
  - apply (in_range_won _ _ Hdep (enriched_deposit He)).
Qed.

Lemma filtered_won_ranges_witness :
  0 * 10000 <= monthlyRent_won (row 1) <= 0 * 10000
  /\ 0 * 10000 <= deposit_won (row 1) <= 1000 * 10000.
Proof.
  apply (@filtered_won_ranges sample_items sample_df sb_zero_rent (row 1) sample_loaded).
  vm_compute. left. reflexivity.
Defined.

Lemma positive_fraction_above_trunc (x : F64.float) (t : Z) :
  positive_fraction x = true -> F64.trunc x = Some t -> F64.leb_Z x t = false.
Proof.
  destruct x as [sg|sg| |sg m e]; try discriminate.
  destruct sg; [discriminate|]. destruct e as [|p|p]; try discriminate.
  unfold positive_fraction, F64.trunc, F64.leb_Z, F64.compare_Z.
  rewrite negb_true_iff, Z.eqb_neq. intros Hrem Ht.
  assert (Et : t = Z.pos m / 2 ^ Z.pos p) by congruence. subst t.
  assert (Hp : 0 < 2 ^ Z.pos p) by (apply Z.pow_pos_nonneg; lia).
  pose proof (Z.div_mod (Z.pos m) (2 ^ Z.pos p) ltac:(lia)) as Hdm.
  pose proof (Z.mod_pos_bound (Z.pos m) (2 ^ Z.pos p) Hp) as Hb.
  destruct (Z.compare_spec (Z.pos m) (Z.pos m / 2 ^ Z.pos p * 2 ^ Z.pos p));
    try reflexivity; nia.
Qed.

(** X13: the upper bound of the rent slider is the truncated maximum.  When
    the largest raw rent is a double above zero with a fraction, the row
    that holds it is not shown under the sidebar defaults. *)
Theorem default_hides_fractional_max (df : list listing) (sb : sidebar) (r : listing)
    (x : F64.float) :
  default_sidebar df = Ok sb ->
  series_max (column (fun r => monthlyRent (raw r)) df) = PyFloat x ->
  monthlyRent (raw r) = PyFloat x ->
  positive_fraction x = true ->
  ~ In r (filtered_df df sb).
Proof.
  intros Hsb Hmax Hr Hx Hin.
  destruct (default_sidebar_Ok _ Hsb) as (M & D & HM & _ & ->).
  rewrite filtered_df_filter, filter_In in Hin. destruct Hin as [_ Hsat].
  unfold satisfies in Hsat. rewrite !andb_true_iff in Hsat.
  destruct Hsat as [[[_ Hrent] _] _].
  rewrite Hr in Hrent. unfold in_range in Hrent.
  cbn [rent_range fst snd cell_ge cell_le] in Hrent.
  apply andb_true_iff in Hrent. destruct Hrent as [_ Hle].
  rewrite Hmax in HM. unfold py_int in HM.
  destruct (F64.trunc x) as [t|] eqn:Et; [|discriminate].
  injection HM as <-.
  rewrite (positive_fraction_above_trunc _ Hx Et) in Hle. discriminate.
Qed.

Lemma sample_fraction_loaded : load_data sample_fraction_items = Ok sample_fraction_df.
Proof. vm_compute. reflexivity. Qed.

Lemma default_hides_fractional_max_witness :
  exists sb,
    default_sidebar sample_fraction_df = Ok sb
    /\ rent_range sb = (0, 50)
    /\ ~ In (nth 0 sample_fraction_df (row 0)) (filtered_df sample_fraction_df sb).
Proof.
  eexists. split; [vm_compute; reflexivity|]. split; [reflexivity|].
  apply (@default_hides_fractional_max sample_fraction_df _ (nth 0 sample_fraction_df (row 0))
           (F64.div (F64.of_Z 101) (F64.of_Z 2))); vm_compute; reflexivity.
Defined.
